(** * SeedUp: the command-line entry point ([main.py])

    A shallow embedding of the four command handlers and of the top-level
    dispatcher of [main.py], followed by the properties of its
    specification.

    The entry point is glue code: it validates the parsed arguments, calls
    functions of other modules ([torrent_downloader], [gdrive_uploader],
    [google.colab]) and turns their results and exceptions into console
    output, log records and an exit code.  The embedding therefore runs
    every handler in a small monad that collects the trace of observable
    events and propagates Python exceptions.  The functions of the other
    modules are fields of an environment record; each answers with a
    value or with an exception, as a function of the events that happened
    before the call.  Exceptions enter a run only through these calls and
    through [import] statements; [print], the logger and [os.path.exists]
    do not raise.  The namespace produced by [argparse] is an input. *)

From Stdlib Require Import String Ascii List Bool ZArith Lia.
From Stdlib Require Import Numbers.DecimalString.
Import ListNotations.
Local Open Scope string_scope.
Local Open Scope Z_scope.

(** ** Python values *)

(** The values handed back by the collaborators: only their truth value,
    their length and the [get] method of a mapping are ever consulted. *)
#[local] Unset Elimination Schemes.
Inductive pyvalue : Type :=
| PyNone
| PyBool (b : bool)
| PyInt (z : Z)
| PyStr (s : string)
| PyList (items : list pyvalue)
| PyDict (entries : list (string * pyvalue)).
#[local] Set Elimination Schemes.

(** Python's truth value testing ([if x], [not x]). *)
Definition truthy (v : pyvalue) : bool :=
  match v with
  | PyNone => false
  | PyBool b => b
  | PyInt z => negb (z =? 0)
  | PyStr s => negb (s =? "")%string
  | PyList items => match items with [] => false | _ :: _ => true end
  | PyDict entries => match entries with [] => false | _ :: _ => true end
  end.

(** An attribute that is [None] or a [str] (argparse's [type=str] options
    without a default, and the path returned by [download_torrent]). *)
Definition opt_value (o : option string) : pyvalue :=
  match o with
  | None => PyNone
  | Some s => PyStr s
  end.

(** [str(x)] for such an attribute, as an f-string renders it. *)
Definition opt_str (o : option string) : string :=
  match o with
  | None => "None"
  | Some s => s
  end.

Definition type_name (v : pyvalue) : string :=
  match v with
  | PyNone => "NoneType"
  | PyBool _ => "bool"
  | PyInt _ => "int"
  | PyStr _ => "str"
  | PyList _ => "list"
  | PyDict _ => "dict"
  end.

(** ** Exceptions *)

(** The classes the [except] clauses of [main.py] tell apart.
    [KeyboardInterrupt], [SystemExit] and [GeneratorExit] derive from
    [BaseException] only; every other class derives from [Exception], and
    [ModuleNotFoundError] derives from [ImportError]. *)
Inductive exn_class : Type :=
| KeyboardInterrupt
| SystemExit
| GeneratorExit
| ImportError
| ModuleNotFoundError
| AttributeError
| TypeError
| OtherException (name : string).

Record exn : Type := mkExn { exn_cls : exn_class; exn_msg : string }.

(** [isinstance(e, Exception)] *)
Definition is_Exception (e : exn) : bool :=
  match exn_cls e with
  | KeyboardInterrupt | SystemExit | GeneratorExit => false
  | _ => true
  end.

(** [isinstance(e, ImportError)] *)
Definition is_ImportError (e : exn) : bool :=
  match exn_cls e with
  | ImportError | ModuleNotFoundError => true
  | _ => false
  end.

(** [isinstance(e, KeyboardInterrupt)] *)
Definition is_KeyboardInterrupt (e : exn) : bool :=
  match exn_cls e with
  | KeyboardInterrupt => true
  | _ => false
  end.

(** The result of running a piece of Python code: a value or a raised
    exception. *)
Inductive outcome (A : Type) : Type :=
| Ret (a : A)
| Raise (e : exn).
Arguments Ret {A} a.
Arguments Raise {A} e.

(** ** Observable events *)

Inductive level : Type := Info | Warning | Error.

(** The calls that leave [main.py]. *)
Inductive call : Type :=
| CDriveMount (mountpoint : string)
| CDownload (torrent download_path : string) (auto_resume : bool)
| CUpload (path : string) (folder_id : option string) (skip_existing : bool)
| CStatus
| CClear.

Inductive event : Type :=
| EvPrint (s : string)
| EvLog (lvl : level) (msg : string) (exc_info : bool)
| EvMountHelper
| EvImport (module : string) (failure : option exn)
| EvPathExists (p : string) (b : bool)
| EvCall (c : call) (r : outcome pyvalue).

(** Events in the order in which they happened. *)
Definition trace : Type := list event.

(** ** The environment *)

(** What lies outside [main.py].  Every field answers as a function of the
    events so far, so that a collaborator may change the file system or
    behave differently on a second call.  [download_torrent] answers the
    downloaded path, or [None] or an empty path for a failure. *)
Record Env : Type := mkEnv {
  import_google_colab : trace -> option exn;
  import_colab_drive : trace -> option exn;
  os_path_exists : trace -> string -> bool;
  drive_mount : trace -> string -> outcome pyvalue;
  import_gdrive_uploader : trace -> option exn;
  upload_to_google_drive :
    trace -> string -> option string -> bool -> outcome pyvalue;
  download_torrent : trace -> string -> string -> bool -> outcome (option string);
  get_download_status : trace -> outcome pyvalue;
  clear_session : trace -> outcome pyvalue
}.

(** ** The monad of handlers *)

(** A piece of handler code reads the events that happened before it and
    answers with the events it adds and its outcome.  The events of a
    block that raises are kept: what was printed or logged before the
    exception stays printed or logged. *)
Module Run.

Definition M (A : Type) : Type := trace -> list event * outcome A.

Definition ret {A} (a : A) : M A := fun _ => ([], Ret a).

Definition raise {A} (e : exn) : M A := fun _ => ([], Raise e).

Definition bind {A B} (m : M A) (k : A -> M B) : M B :=
  fun tr =>
    match m tr with
    | (evs, Ret a) =>
        let (evs', r) := k a (tr ++ evs)%list in ((evs ++ evs')%list, r)
    | (evs, Raise e) => (evs, Raise e)
    end.

Definition emit (ev : event) : M unit := fun _ => ([ev], Ret tt).

(** [try: m except C1: h1 except C2: h2 ...]: the first clause whose
    class matches handles the exception; an exception raised inside a
    clause is not offered to the other clauses. *)
Fixpoint select_clause {A} (clauses : list ((exn -> bool) * (exn -> M A)))
         (e : exn) : M A :=
  match clauses with
  | [] => raise e
  | (matches, handler) :: rest =>
      if matches e then handler e else select_clause rest e
  end.

Definition try_except {A} (m : M A)
           (clauses : list ((exn -> bool) * (exn -> M A))) : M A :=
  fun tr =>
    match m tr with
    | (evs, Ret a) => (evs, Ret a)
    | (evs, Raise e) =>
        let (evs', r) := select_clause clauses e (tr ++ evs)%list in
        ((evs ++ evs')%list, r)
    end.

(** A call that leaves the program: the answer is recorded with it. *)
Definition extern (c : call) (answer : trace -> outcome pyvalue) : M pyvalue :=
  fun tr => ([EvCall c (answer tr)], answer tr).

(** The call of [download_torrent], which answers a path or [None]. *)
Definition extern_path (c : call) (answer : trace -> outcome (option string))
  : M (option string) :=
  fun tr =>
    match answer tr with
    | Ret p => ([EvCall c (Ret (opt_value p))], Ret p)
    | Raise e => ([EvCall c (Raise e)], Raise e)
    end.

(** [os.path.exists(p)] *)
Definition path_exists (p : string) (answer : trace -> string -> bool) : M bool :=
  fun tr => ([EvPathExists p (answer tr p)], Ret (answer tr p)).

(** An [import] statement. *)
Definition import_ (module : string) (answer : trace -> option exn) : M unit :=
  fun tr =>
    match answer tr with
    | None => ([EvImport module None], Ret tt)
    | Some e => ([EvImport module (Some e)], Raise e)
    end.

(** A run from the start of the process. *)
Definition run {A} (m : M A) : trace * outcome A := m [].

End Run.
Import Run.

Notation "x <- m ;; k" := (bind m (fun x => k))
  (at level 61, m at next level, right associativity).
Notation "m ;; k" := (bind m (fun _ => k))
  (at level 61, right associativity).

Definition print (s : string) : M unit := emit (EvPrint s).
Definition logger_info (msg : string) : M unit := emit (EvLog Info msg false).
Definition logger_warning (msg : string) : M unit := emit (EvLog Warning msg false).
Definition logger_error (msg : string) : M unit := emit (EvLog Error msg false).
(** [logger.error(msg, exc_info=True)] *)
Definition logger_error_exc_info (msg : string) : M unit := emit (EvLog Error msg true).

(** ** String helpers *)

Definition nl : string := String (ascii_of_nat 10) EmptyString.

(** [s * n] *)
Fixpoint str_mul (s : string) (n : nat) : string :=
  match n with
  | O => ""
  | S n' => s ++ str_mul s n'
  end.

(** ["="*60] *)
Definition rule : string := Eval cbv in str_mul "=" 60.

(** [str(n)] for a length. *)
Definition str_of_nat (n : nat) : string := NilZero.string_of_uint (Nat.to_uint n).

(** [s.startswith(p)] *)
Definition startswith (s p : string) : bool := String.prefix p s.

(** ** Parsed arguments *)

(** The namespace built by [parse_arguments].  [command] is [None] when no
    subcommand was given; [folder_id] is [None] when [--folder-id] was not
    given ([download] only, [upload] requires it). *)
Record Namespace : Type := mkNamespace {
  command : option string;
  torrent : string;
  destination : string;
  no_resume : bool;
  upload : bool;
  folder_id : option string;
  no_skip : bool;
  path : string
}.

(** ** Google Drive mount helper *)

Definition ensure_drive_mounted (E : Env) : M unit :=
  emit EvMountHelper ;;
  try_except
    (import_ "google.colab" (import_google_colab E) ;;
     import_ "google.colab.drive" (import_colab_drive E) ;;
     mounted <- path_exists "/content/drive/MyDrive" (os_path_exists E) ;;
     if negb mounted then
       print "Mounting Google Drive..." ;;
       extern (CDriveMount "/content/drive")
              (fun tr => drive_mount E tr "/content/drive") ;;
       ret tt
     else ret tt)
    [(is_ImportError, fun _ => ret tt)].

(** ** Dynamic uploader import *)

(** The imported function is the environment's [upload_to_google_drive];
    what [get_uploader] contributes is the import and its failure. *)
Definition get_uploader (E : Env) : M unit :=
  try_except
    (import_ "gdrive_uploader" (import_gdrive_uploader E))
    [(is_ImportError, fun e =>
        logger_error ("Failed to import uploader: " ++ exn_msg e) ;;
        print (nl ++ rule) ;;
        print "ERROR: Failed to import Google Drive uploader" ;;
        print rule ;;
        print "Please install required packages:" ;;
        print "  pip install google-auth-oauthlib google-auth-httplib2 google-api-python-client" ;;
        print rule ;;
        raise e)].

(** ** Reading the upload result *)

(** [d.get(key)] on the entries of a mapping. *)
Fixpoint dict_get (entries : list (string * pyvalue)) (key : string) : pyvalue :=
  match entries with
  | [] => PyNone
  | (k, v) :: rest => if (k =? key)%string then v else dict_get rest key
  end.

(** [results.get(key)]: only a mapping has the method. *)
Definition py_get (results : pyvalue) (key : string) : M pyvalue :=
  match results with
  | PyDict entries => ret (dict_get entries key)
  | PyStr _ | PyNone | PyBool _ | PyInt _ | PyList _ =>
      raise (mkExn AttributeError
               ("'" ++ type_name results ++ "' object has no attribute 'get'"))
  end.

(** The number of characters of a UTF-8 encoded string: the bytes that are
    not continuation bytes ([0x80] to [0xBF]). *)
Fixpoint str_len (s : string) : nat :=
  match s with
  | EmptyString => O
  | String c rest =>
      let n := nat_of_ascii c in
      if ((128 <=? n) && (n <? 192))%nat then str_len rest else S (str_len rest)
  end.

(** [len(v)] *)
Definition py_len (v : pyvalue) : M nat :=
  match v with
  | PyList items => ret (List.length items)
  | PyDict entries => ret (List.length entries)
  | PyStr s => ret (str_len s)
  | PyNone | PyBool _ | PyInt _ =>
      raise (mkExn TypeError
               ("object of type '" ++ type_name v ++ "' has no len()"))
  end.

(** The statements shared by both handlers after the upload returned:
    [Some code] is an early [return code], [None] falls through. *)
Definition interpret_results (results : pyvalue) : M (option Z) :=
  failed <- py_get results "failed" ;;
  if truthy failed then
    n <- py_len failed ;;
    logger_warning ("Some files failed (" ++ str_of_nat n ++ ")") ;;
    ret (Some 1)
  else
    logger_info "Upload completed successfully!" ;;
    ret None.

(** ** Download handler *)

Definition handle_download (E : Env) (args : Namespace) : M Z :=
  print rule ;;
  print "TORRENT DOWNLOADER" ;;
  print rule ;;
  (if startswith (destination args) "/content/drive"
   then ensure_drive_mounted E else ret tt) ;;
  if upload args && negb (truthy (opt_value (folder_id args))) then
    logger_error "--folder-id is required when using --upload" ;;
    ret 1
  else
    logger_info ("Starting download: " ++ torrent args) ;;
    downloaded_path <-
      extern_path
        (CDownload (torrent args) (destination args) (negb (no_resume args)))
        (fun tr => download_torrent E tr (torrent args) (destination args)
                                    (negb (no_resume args))) ;;
    if negb (truthy (opt_value downloaded_path)) then
      logger_error "Download failed or cancelled" ;;
      ret 1
    else
      logger_info ("Download completed: " ++ opt_str downloaded_path) ;;
      early <-
        (if upload args then
           ensure_drive_mounted E ;;
           print (nl ++ rule) ;;
           print "UPLOADING TO GOOGLE DRIVE" ;;
           print rule ;;
           try_except
             (get_uploader E ;;
              results <-
                extern
                  (CUpload (opt_str downloaded_path) (folder_id args)
                           (negb (no_skip args)))
                  (fun tr => upload_to_google_drive E tr
                               (opt_str downloaded_path) (folder_id args)
                               (negb (no_skip args))) ;;
              interpret_results results)
             [(is_Exception, fun e =>
                 logger_error ("Upload failed: " ++ exn_msg e) ;;
                 ret (Some 1))]
         else ret None) ;;
      match early with
      | Some code => ret code
      | None => ret 0
      end.

(** ** Upload handler *)

Definition handle_upload (E : Env) (args : Namespace) : M Z :=
  print rule ;;
  print "GOOGLE DRIVE UPLOADER" ;;
  print rule ;;
  ensure_drive_mounted E ;;
  present <- path_exists (path args) (os_path_exists E) ;;
  if negb present then
    logger_error ("Path does not exist: " ++ path args) ;;
    ret 1
  else
    try_except
      (get_uploader E ;;
       results <-
         extern
           (CUpload (path args) (folder_id args) (negb (no_skip args)))
           (fun tr => upload_to_google_drive E tr (path args) (folder_id args)
                                             (negb (no_skip args))) ;;
       early <- interpret_results results ;;
       match early with
       | Some code => ret code
       | None => ret 0
       end)
      [(is_Exception, fun e =>
          logger_error ("Upload failed: " ++ exn_msg e) ;;
          ret 1)].

(** ** Status and clear handlers *)

Definition msg_session_found : string := "✓ Found paused download session".
Definition msg_no_session : string := "✗ No paused download session found".
Definition msg_session_cleared : string := "✓ Download session cleared".
Definition msg_clear_failed : string := "✗ Failed to clear session".

Definition handle_status (E : Env) (args : Namespace) : M Z :=
  status <- extern CStatus (get_download_status E) ;;
  (if truthy status then print msg_session_found
   else print msg_no_session) ;;
  ret 0.

Definition handle_clear (E : Env) (args : Namespace) : M Z :=
  cleared <- extern CClear (clear_session E) ;;
  if truthy cleared then
    print msg_session_cleared ;; ret 0
  else
    print msg_clear_failed ;; ret 1.

(** ** Main *)

(** The body of the [try] statement of [main]: the chain of comparisons
    on [args.command]. *)
Definition dispatch (E : Env) (args : Namespace) : M Z :=
  let cmd := opt_str (command args) in
  if (cmd =? "download")%string then handle_download E args
  else if (cmd =? "upload")%string then handle_upload E args
  else if (cmd =? "status")%string then handle_status E args
  else if (cmd =? "clear")%string then handle_clear E args
  else
    logger_error ("Unknown command: " ++ cmd) ;;
    ret 1.

(** [main], from the namespace returned by [parse_arguments]. *)
Definition main (E : Env) (args : Namespace) : M Z :=
  if negb (truthy (opt_value (command args))) then
    print ("Error: No command specified" ++ nl) ;;
    ret 1
  else
    try_except
      (dispatch E args)
      [(is_KeyboardInterrupt, fun _ =>
          print (nl ++ "Operation cancelled by user") ;;
          ret 130);
       (is_Exception, fun e =>
          logger_error_exc_info ("Operation failed: " ++ exn_msg e) ;;
          ret 1)].

(** ** Trace predicates *)

Definition is_download_call (ev : event) : bool :=
  match ev with
  | EvCall (CDownload _ _ _) _ => true
  | _ => false
  end.

Definition is_upload_call (ev : event) : bool :=
  match ev with
  | EvCall (CUpload _ _ _) _ => true
  | _ => false
  end.

(** A log record that carries the traceback. *)
Definition is_traceback (ev : event) : bool :=
  match ev with
  | EvLog _ _ true => true
  | _ => false
  end.

Definition is_mount_helper (ev : event) : bool :=
  match ev with
  | EvMountHelper => true
  | _ => false
  end.

(** The events the mount helper adds after its entry. *)
Definition is_mount_event (ev : event) : bool :=
  match ev with
  | EvImport module _ =>
      (module =? "google.colab")%string || (module =? "google.colab.drive")%string
  | EvPathExists p _ => (p =? "/content/drive/MyDrive")%string
  | EvPrint s => (s =? "Mounting Google Drive...")%string
  | EvCall (CDriveMount _) _ => true
  | _ => false
  end.

(** The events of the [try] statement around the upload. *)
Definition is_upload_event (ev : event) : bool :=
  match ev with
  | EvImport module _ => (module =? "gdrive_uploader")%string
  | EvLog _ _ false => true
  | EvPrint _ => true
  | EvCall (CUpload _ _ _) _ => true
  | _ => false
  end.

(** No event of the trace satisfies [p]. *)
Definition never (p : event -> bool) (tr : trace) : Prop := existsb p tr = false.

(** The last event of the trace is [ev]. *)
Definition ends_with (tr : trace) (ev : event) : Prop :=
  exists before, tr = (before ++ [ev])%list.

Definition banner_download : trace :=
  [EvPrint rule; EvPrint "TORRENT DOWNLOADER"; EvPrint rule].

Definition banner_upload : trace :=
  [EvPrint rule; EvPrint "GOOGLE DRIVE UPLOADER"; EvPrint rule].

(** The log records of the handlers. *)
Definition log_folder_id_required : event :=
  EvLog Error "--folder-id is required when using --upload" false.

Definition log_download_failed : event :=
  EvLog Error "Download failed or cancelled" false.

Definition log_path_missing (p : string) : event :=
  EvLog Error ("Path does not exist: " ++ p) false.

Definition log_some_failed (n : nat) : event :=
  EvLog Warning ("Some files failed (" ++ str_of_nat n ++ ")") false.

Definition log_upload_completed : event :=
  EvLog Info "Upload completed successfully!" false.

Definition log_upload_failed (e : exn) : event :=
  EvLog Error ("Upload failed: " ++ exn_msg e) false.

Definition log_operation_failed (e : exn) : event :=
  EvLog Error ("Operation failed: " ++ exn_msg e) true.

Definition print_cancelled : event :=
  EvPrint (nl ++ "Operation cancelled by user").

(** The mount helper came back without raising when entered after [tr]. *)
Definition mount_helper_returns (E : Env) (tr : trace) : Prop :=
  snd (ensure_drive_mounted E tr) = Ret tt.

(** ** Sample environments *)

(** A plain host: no notebook library, no file at any path, every
    collaborator succeeds. *)
Definition plain_host : Env := {|
  import_google_colab := fun _ =>
    Some (mkExn ModuleNotFoundError "No module named 'google'");
  import_colab_drive := fun _ =>
    Some (mkExn ModuleNotFoundError "No module named 'google'");
  os_path_exists := fun _ _ => false;
  drive_mount := fun _ _ => Ret PyNone;
  import_gdrive_uploader := fun _ => None;
  upload_to_google_drive := fun _ _ _ _ =>
    Ret (PyDict [("uploaded", PyList [PyStr "file.iso"]); ("failed", PyList [])]);
  download_torrent := fun _ _ _ _ => Ret (Some "/tmp/out/file.iso");
  get_download_status := fun _ => Ret (PyBool true);
  clear_session := fun _ => Ret (PyBool true)
|}.

(** A notebook whose drive is not mounted yet; [mount] is how
    [drive.mount] ends. *)
Definition notebook (mount : outcome pyvalue) : Env := {|
  import_google_colab := fun _ => None;
  import_colab_drive := fun _ => None;
  os_path_exists := fun _ _ => false;
  drive_mount := fun _ _ => mount;
  import_gdrive_uploader := fun _ => None;
  upload_to_google_drive := upload_to_google_drive plain_host;
  download_torrent := download_torrent plain_host;
  get_download_status := get_download_status plain_host;
  clear_session := clear_session plain_host
|}.

Definition with_status (E : Env) (answer : outcome pyvalue) : Env := {|
  import_google_colab := import_google_colab E;
  import_colab_drive := import_colab_drive E;
  os_path_exists := os_path_exists E;
  drive_mount := drive_mount E;
  import_gdrive_uploader := import_gdrive_uploader E;
  upload_to_google_drive := upload_to_google_drive E;
  download_torrent := download_torrent E;
  get_download_status := fun _ => answer;
  clear_session := clear_session E
|}.

Definition with_clear (E : Env) (answer : outcome pyvalue) : Env := {|
  import_google_colab := import_google_colab E;
  import_colab_drive := import_colab_drive E;
  os_path_exists := os_path_exists E;
  drive_mount := drive_mount E;
  import_gdrive_uploader := import_gdrive_uploader E;
  upload_to_google_drive := upload_to_google_drive E;
  download_torrent := download_torrent E;
  get_download_status := get_download_status E;
  clear_session := fun _ => answer
|}.

Definition with_download (E : Env) (answer : outcome (option string)) : Env := {|
  import_google_colab := import_google_colab E;
  import_colab_drive := import_colab_drive E;
  os_path_exists := os_path_exists E;
  drive_mount := drive_mount E;
  import_gdrive_uploader := import_gdrive_uploader E;
  upload_to_google_drive := upload_to_google_drive E;
  download_torrent := fun _ _ _ _ => answer;
  get_download_status := get_download_status E;
  clear_session := clear_session E
|}.

(** The uploader module imports as [imported] says and the upload ends as
    [answer] says; every path exists. *)
Definition with_upload (E : Env) (imported : option exn) (answer : outcome pyvalue)
  : Env := {|
  import_google_colab := import_google_colab E;
  import_colab_drive := import_colab_drive E;
  os_path_exists := fun _ _ => true;
  drive_mount := drive_mount E;
  import_gdrive_uploader := fun _ => imported;
  upload_to_google_drive := fun _ _ _ _ => answer;
  download_torrent := download_torrent E;
  get_download_status := get_download_status E;
  clear_session := clear_session E
|}.

Definition status_args : Namespace :=
  mkNamespace (Some "status") "" "" false false None false "".

Definition clear_args : Namespace :=
  mkNamespace (Some "clear") "" "" false false None false "".

(** [download -t magnet:?xt=abc -d /tmp/out] *)
Definition download_args : Namespace :=
  mkNamespace (Some "download") "magnet:?xt=abc" "/tmp/out" false false None false "".

(** [download -t magnet:?xt=abc -d /tmp/out --upload -f abc123] *)
Definition download_upload_args : Namespace :=
  mkNamespace (Some "download") "magnet:?xt=abc" "/tmp/out" false true
              (Some "abc123") false "".

(** [download -t magnet:?xt=abc -d /content/drive/MyDrive/torrents --upload] *)
Definition download_no_folder_args : Namespace :=
  mkNamespace (Some "download") "magnet:?xt=abc" "/content/drive/MyDrive/torrents"
              false true None false "".

(** [upload -p /missing/path -f abc123] *)
Definition upload_missing_args : Namespace :=
  mkNamespace (Some "upload") "" "" false false (Some "abc123") false "/missing/path".

(** [upload -p /tmp/out/file.iso -f abc123] *)
Definition upload_args : Namespace :=
  mkNamespace (Some "upload") "" "" false false (Some "abc123") false
              "/tmp/out/file.iso".

(** ** The upload step *)

(** The [try] statement of [handle_download], entered with the path [p],
    the folder identifier [f] and the skip-existing flag [s]. *)
Definition upload_block (E : Env) (p : string) (f : option string) (s : bool)
  : M (option Z) :=
  try_except
    (get_uploader E ;;
     results <-
       extern (CUpload p f s) (fun tr => upload_to_google_drive E tr p f s) ;;
     interpret_results results)
    [(is_Exception, fun e =>
        logger_error ("Upload failed: " ++ exn_msg e) ;;
        ret (Some 1))].

(** The [try] statement of [handle_upload]. *)
Definition upload_block_return (E : Env) (p : string) (f : option string) (s : bool)
  : M Z :=
  try_except
    (get_uploader E ;;
     results <-
       extern (CUpload p f s) (fun tr => upload_to_google_drive E tr p f s) ;;
     early <- interpret_results results ;;
     match early with
     | Some code => ret code
     | None => ret 0
     end)
    [(is_Exception, fun e =>
        logger_error ("Upload failed: " ++ exn_msg e) ;;
        ret 1)].

Definition exit_code (early : option Z) : Z :=
  match early with
  | Some code => code
  | None => 0
  end.

Definition map_outcome {A B} (f : A -> B) (o : outcome A) : outcome B :=
  match o with
  | Ret a => Ret (f a)
  | Raise e => Raise e
  end.

(** What a handler does with an exception [e] of the upload step, given
    the events [evs] up to its end and its outcome [r]. *)
Definition contained (e : exn) (evs : list event) (r : outcome Z) : Prop :=
  if is_Exception e
  then r = Ret 1 /\ ends_with evs (log_upload_failed e)
  else r = Raise e.

(** What a handler does with the outcome [o] of the upload call. *)
Definition upload_verdict (o : outcome pyvalue) (evs : list event) (r : outcome Z)
  : Prop :=
  match o with
  | Raise e => contained e evs r
  | Ret (PyDict entries) =>
      let failed := dict_get entries "failed" in
      if truthy failed then
        r = Ret 1
        /\ match failed with
           | PyList items => ends_with evs (log_some_failed (List.length items))
           | _ => True
           end
      else r = Ret 0 /\ ends_with evs log_upload_completed
  | Ret _ => r = Ret 1
  end.

(** [key in d] *)
Definition dict_has_key (entries : list (string * pyvalue)) (key : string) : bool :=
  existsb (fun kv => (fst kv =? key)%string) entries.

(** ** Statements of the specification *)

(** C1 as the specification words it. *)
Definition fails_fast_without_folder_id (E : Env) (args : Namespace) : Prop :=
  exists tr,
    run (handle_download E args) = (tr, Ret 1)
    /\ ends_with tr log_folder_id_required
    /\ never is_download_call tr
    /\ never is_upload_call tr.

(** C5 as the specification words it. *)
Definition status_exits_zero (E : Env) (args : Namespace) : Prop :=
  exists answer message,
    run (handle_status E args)
    = ([EvCall CStatus answer; EvPrint message], Ret 0)
    /\ (message = msg_session_found \/ message = msg_no_session).

(** C7 as the specification words it. *)
Definition rejects_missing_path (E : Env) (args : Namespace) : Prop :=
  exists tr,
    run (handle_upload E args) = (tr, Ret 1)
    /\ ends_with tr (log_path_missing (path args))
    /\ never is_upload_call tr.

(** The first half of C9 as the specification words it. *)
Definition validates_before_mounting (E : Env) (args : Namespace) : Prop :=
  exists tr,
    run (handle_upload E args) = (tr, Ret 1)
    /\ never is_mount_helper tr.



(** The exception [e] was raised by a call that left the program, or by
    an import, during the events [tr]. *)
Definition raised_in (e : exn) (tr : trace) : Prop :=
  (exists c, In (EvCall c (Raise e)) tr)
  \/ (exists module, In (EvImport module (Some e)) tr).

(** C8 as the specification words it, for one dispatched command and one
    exception. *)
Definition translates_exception (E : Env) (args : Namespace) (e : exn) : Prop :=
  forall tr r,
    truthy (opt_value (command args)) = true ->
    dispatch E args [] = (tr, r) ->
    (is_KeyboardInterrupt e = true -> raised_in e tr ->
     run (main E args) = ((tr ++ [print_cancelled])%list, Ret 130)
     /\ never is_traceback (tr ++ [print_cancelled])%list)
    /\ (is_KeyboardInterrupt e = false -> r = Raise e ->
        run (main E args) = ((tr ++ [log_operation_failed e])%list, Ret 1)).

(** ** Further statements about the handlers *)

Definition is_mount_call (ev : event) : bool :=
  match ev with
  | EvCall (CDriveMount _) _ => true
  | _ => false
  end.

Definition is_status_call (ev : event) : bool :=
  match ev with
  | EvCall CStatus _ => true
  | _ => false
  end.

Definition is_clear_call (ev : event) : bool :=
  match ev with
  | EvCall CClear _ => true
  | _ => false
  end.

Definition is_path_check (ev : event) : bool :=
  match ev with
  | EvPathExists _ _ => true
  | _ => false
  end.

(** The events [evs] happen in this order, possibly with others in
    between, in the trace. *)
Inductive subsequence : list event -> list event -> Prop :=
| sub_nil (tr : list event) : subsequence [] tr
| sub_skip (ev : event) (evs tr : list event) :
    subsequence evs tr -> subsequence evs (ev :: tr)
| sub_take (ev : event) (evs tr : list event) :
    subsequence evs tr -> subsequence (ev :: evs) (ev :: tr).

Definition log_download_completed (p : string) : event :=
  EvLog Info ("Download completed: " ++ p) false.

Definition log_import_failed (e : exn) : event :=
  EvLog Error ("Failed to import uploader: " ++ exn_msg e) false.

Definition print_install_hint : event :=
  EvPrint "Please install required packages:".

(** The [AttributeError] of [results.get] on a value that is no mapping. *)
Definition not_a_mapping (v : pyvalue) : exn :=
  mkExn AttributeError ("'" ++ type_name v ++ "' object has no attribute 'get'").

(** The [TypeError] of [len] on a value that has no length. *)
Definition no_len (v : pyvalue) : exn :=
  mkExn TypeError ("object of type '" ++ type_name v ++ "' has no len()").

Definition is_mapping (v : pyvalue) : bool :=
  match v with
  | PyDict _ => true
  | _ => false
  end.

(** The last log record of a handler after the upload returned [v]. *)
Definition result_log (v : pyvalue) : event :=
  match v with
  | PyDict entries =>
      let failed := dict_get entries "failed" in
      if truthy failed then
        match failed with
        | PyList items => log_some_failed (List.length items)
        | PyDict failures => log_some_failed (List.length failures)
        | PyStr s => log_some_failed (str_len s)
        | PyNone | PyBool _ | PyInt _ => log_upload_failed (no_len failed)
        end
      else log_upload_completed
  | PyNone | PyBool _ | PyInt _ | PyStr _ | PyList _ =>
      log_upload_failed (not_a_mapping v)
  end.

(** The exit code of a handler after the upload returned [v]. *)
Definition result_code (v : pyvalue) : Z :=
  match v with
  | PyDict entries => if truthy (dict_get entries "failed") then 1 else 0
  | _ => 1
  end.

(** * Proofs *)

Local Open Scope list_scope.

(** ** Reasoning about traces *)

Lemma never_nil (p : event -> bool) : never p [].
Proof. reflexivity. Qed.

Lemma never_cons (p : event -> bool) (ev : event) (evs : list event) :
  p ev = false -> never p evs -> never p (ev :: evs).
Proof. unfold never. cbn. intros -> ->. reflexivity. Qed.

Lemma never_app (p : event -> bool) (evs1 evs2 : list event) :
  never p evs1 -> never p evs2 -> never p (evs1 ++ evs2).
Proof. unfold never. rewrite existsb_app. intros -> ->. reflexivity. Qed.

Lemma never_by_kind (kind p : event -> bool) (evs : list event) :
  (forall ev, kind ev = true -> p ev = false) ->
  forallb kind evs = true -> never p evs.
Proof.
  intros Hp. unfold never. induction evs as [|ev evs IH]; cbn; [reflexivity|].
  intros H. apply andb_prop in H. destruct H as [H1 H2].
  rewrite (Hp ev H1), (IH H2). reflexivity.
Qed.

Lemma kind_of_member (kind : event -> bool) (evs : list event) (ev : event) :
  forallb kind evs = true -> In ev evs -> kind ev = true.
Proof.
  intros Hall Hin. rewrite forallb_forall in Hall. apply Hall, Hin.
Qed.

Lemma ends_with_last (ev : event) : ends_with [ev] ev.
Proof. exists []. reflexivity. Qed.

Lemma ends_with_cons (ev0 ev : event) (evs : list event) :
  ends_with evs ev -> ends_with (ev0 :: evs) ev.
Proof. intros [before ->]. exists (ev0 :: before). reflexivity. Qed.

Lemma ends_with_app (ev : event) (evs1 evs2 : list event) :
  ends_with evs2 ev -> ends_with (evs1 ++ evs2) ev.
Proof. intros [before ->]. exists (evs1 ++ before). apply app_assoc. Qed.

(** An exception raised in a run of the mount helper was raised after its
    entry. *)
Lemma raised_after_entry (e : exn) (evs : list event) :
  raised_in e (EvMountHelper :: evs) -> raised_in e evs.
Proof.
  intros [[c [Hhead|Hin]]|[m [Hhead|Hin]]]; try discriminate Hhead.
  - left. exists c. exact Hin.
  - right. exists m. exact Hin.
Qed.

Lemma mount_event_not_upload (ev : event) :
  is_mount_event ev = true -> is_upload_call ev = false.
Proof. destruct ev as [ | | | | |[]]; cbn; congruence. Qed.

Lemma mount_event_not_download (ev : event) :
  is_mount_event ev = true -> is_download_call ev = false.
Proof. destruct ev as [ | | | | |[]]; cbn; congruence. Qed.

Lemma mount_event_not_traceback (ev : event) :
  is_mount_event ev = true -> is_traceback ev = false.
Proof. destruct ev as [ | | | | |[]]; cbn; congruence. Qed.

Lemma upload_event_not_download (ev : event) :
  is_upload_event ev = true -> is_download_call ev = false.
Proof. destruct ev as [ | | | | |[]]; cbn; congruence. Qed.

Lemma upload_event_not_traceback (ev : event) :
  is_upload_event ev = true -> is_traceback ev = false.
Proof. destruct ev as [ |? ? []| | | |[]]; cbn; congruence. Qed.

Lemma upload_event_not_mount_helper (ev : event) :
  is_upload_event ev = true -> is_mount_helper ev = false.
Proof. destruct ev as [ | | | | |[]]; cbn; congruence. Qed.

Lemma ImportError_is_Exception (e : exn) :
  is_ImportError e = true -> is_Exception e = true.
Proof. unfold is_ImportError, is_Exception. destruct (exn_cls e); congruence. Qed.

Lemma KeyboardInterrupt_not_Exception (e : exn) :
  is_KeyboardInterrupt e = true -> is_Exception e = false.
Proof.
  unfold is_KeyboardInterrupt, is_Exception. destruct (exn_cls e); congruence.
Qed.

Lemma dict_get_absent (entries : list (string * pyvalue)) (key : string) :
  dict_has_key entries key = false -> dict_get entries key = PyNone.
Proof.
  unfold dict_has_key. induction entries as [|[k v] entries IH]; cbn.
  - reflexivity.
  - destruct (k =? key)%string; cbn; [discriminate | exact IH].
Qed.

(** ** Case analysis of a run *)

(** Unfolds the monad down to the calls that leave the program. *)
Ltac unfold_run :=
  cbv [run handle_download handle_upload upload_block
       get_uploader interpret_results py_get py_len
       bind ret raise emit try_except select_clause extern extern_path
       path_exists import_ print logger_info logger_warning logger_error
       logger_error_exc_info].

(** The last event of an explicit trace. *)
Ltac show_ends_with :=
  solve [ repeat first
            [ apply ends_with_last | apply ends_with_cons | apply ends_with_app
            | eassumption ] ].

(** An explicit trace has no event of some kind; the events of the mount
    helper and of the upload step are known by their kind only. *)
Ltac show_never :=
  solve [ repeat first
    [ apply never_nil
    | apply never_cons; [reflexivity|]
    | apply never_app
    | eapply never_by_kind;
      [ | eassumption ];
      first [ apply mount_event_not_upload | apply mount_event_not_download
            | apply mount_event_not_traceback | apply upload_event_not_download
            | apply upload_event_not_traceback
            | apply upload_event_not_mount_helper ] ] ].

(** Splits a membership in a trace into its cases and discards those in
    which the event is of another kind. *)
Ltac split_in :=
  repeat match goal with
  | H : In _ [] |- _ => destruct H
  | H : In _ (_ :: _) |- _ => destruct H as [H|H]
  | H : In _ (_ ++ _) |- _ => apply in_app_or in H; destruct H as [H|H]
  | H : In ?ev ?evs, Hk : forallb _ ?evs = true |- _ =>
      apply (kind_of_member _ _ _ Hk) in H; discriminate H
  | H : @eq event _ _ |- _ => first [ discriminate H | inversion H; subst; clear H ]
  end.

(** The mount helper, seen from its callers: its events, and the fate of
    an exception that is not an [ImportError]. *)
Lemma ensure_drive_mounted_events (E : Env) (tr : trace) :
  exists evs r,
    ensure_drive_mounted E tr = (EvMountHelper :: evs, r)
    /\ forallb is_mount_event evs = true
    /\ (forall e, raised_in e evs -> is_ImportError e = false -> r = Raise e).
Proof.
  unfold ensure_drive_mounted. unfold_run.
  destruct (import_google_colab E _) as [e1|]; cbn [app].
  - destruct (is_ImportError e1) eqn:H1; cbn [app]; eexists; eexists;
      (split; [reflexivity|]); (split; [reflexivity|]);
      intros e [[c Hin]|[m Hin]] He; split_in; congruence.
  - destruct (import_colab_drive E _) as [e2|]; cbn [app].
    + destruct (is_ImportError e2) eqn:H2; cbn [app]; eexists; eexists;
        (split; [reflexivity|]); (split; [reflexivity|]);
        intros e [[c Hin]|[m Hin]] He; split_in; congruence.
    + destruct (os_path_exists E _ _); cbn [app negb].
      * eexists; eexists; (split; [reflexivity|]); (split; [reflexivity|]).
        intros e [[c Hin]|[m Hin]] He; split_in.
      * destruct (drive_mount E _ _) as [v|e3]; cbn [app].
        -- eexists; eexists; (split; [reflexivity|]); (split; [reflexivity|]).
           intros e [[c Hin]|[m Hin]] He; split_in.
        -- destruct (is_ImportError e3) eqn:H3; cbn [app]; eexists; eexists;
             (split; [reflexivity|]); (split; [reflexivity|]);
             intros e [[c Hin]|[m Hin]] He; split_in; congruence.
Qed.

(** Replaces a call of the mount helper by its events and its outcome. *)
Ltac enter_mount_helper E tr :=
  let evs := fresh "mount_evs" in
  let r := fresh "mount_r" in
  let Heq := fresh "Hmount" in
  let Hevs := fresh "Hmount_evs" in
  let Hraise := fresh "Hmount_raise" in
  destruct (ensure_drive_mounted_events E tr) as (evs & r & Heq & Hevs & Hraise);
  rewrite Heq; clear Heq; destruct r as [[]|?].

(** One case distinction on the next answer of the environment or on the
    next test of the code. *)
Ltac run_step E :=
  match goal with
  | |- context [ensure_drive_mounted E ?tr] => enter_mount_helper E tr
  | |- context [import_gdrive_uploader E ?tr] =>
      destruct (import_gdrive_uploader E tr) eqn:?
  | |- context [download_torrent E ?tr ?t ?d ?a] =>
      destruct (download_torrent E tr t d a) as [[?|]|?] eqn:?
  | |- context [upload_to_google_drive E ?tr ?p ?f ?s] =>
      destruct (upload_to_google_drive E tr p f s) as [[]|?] eqn:?
  | |- context [os_path_exists E ?tr ?p] =>
      destruct (os_path_exists E tr p) eqn:?
  | |- context [dict_get ?d ?k] => destruct (dict_get d k) eqn:?
  | |- context [if is_ImportError ?e then _ else _] =>
      let H := fresh "Himport" in
      destruct (is_ImportError e) eqn:H;
      [ rewrite ?(ImportError_is_Exception e H) | ]
  | |- context [if ?c then _ else _] =>
      first [ is_var c; destruct c | destruct c eqn:? ]
  | |- context [match ?l with [] => _ | _ :: _ => _ end] => is_var l; destruct l
  end.

Ltac run_cases E :=
  unfold_run;
  repeat (run_step E; cbn [app truthy negb andb is_Exception exn_cls]).

(** Rewrites with the answers and tests recorded so far. *)
Ltac use_equations :=
  repeat match goal with
  | H : is_ImportError ?e = true |- context [is_Exception ?e] =>
      rewrite (ImportError_is_Exception e H)
  | H : ?x = _ |- context [?x] => rewrite H
  end.

Ltac conclude :=
  cbv [upload_verdict contained map_outcome exit_code];
  use_equations;
  cbn [truthy negb is_Exception exn_cls];
  use_equations;
  repeat split;
  first [ reflexivity | exact I | show_ends_with | show_never ].

(** The upload step, seen from the handlers: its events, the arguments
    of the upload call, and how the step ends after the call or after a
    failed import. *)
Lemma upload_block_cases (E : Env) p f s tr evs r :
  upload_block E p f s tr = (evs, r) ->
  forallb is_upload_event evs = true
  /\ (forall c o, In (EvCall c o) evs ->
        c = CUpload p f s /\ upload_verdict o evs (map_outcome exit_code r))
  /\ (forall e, In (EvImport "gdrive_uploader" (Some e)) evs ->
        contained e evs (map_outcome exit_code r))
  /\ (import_gdrive_uploader E tr = None ->
      exists o rest,
        evs = EvImport "gdrive_uploader" None :: EvCall (CUpload p f s) o :: rest).
Proof.
  run_cases E.
  all: intros Hrun; apply pair_equal_spec in Hrun; destruct Hrun as [<- <-].
  all: split; [reflexivity|].
  all: split; [intros c o Hin; split_in; (split; [reflexivity|]); conclude |].
  all: split; [intros e' Hin; split_in; conclude |].
  all: intros Himp; try discriminate Himp; eauto.
Qed.

(** The [try] statement of [handle_upload] is the upload step followed by
    [return]. *)
Lemma upload_block_return_eq (E : Env) p f s tr :
  upload_block_return E p f s tr
  = let (evs, r) := upload_block E p f s tr in (evs, map_outcome exit_code r).
Proof.
  unfold upload_block_return. run_cases E; reflexivity.
Qed.

Lemma upload_verdict_app (o : outcome pyvalue) (pre evs : list event) r :
  upload_verdict o evs r -> upload_verdict o (pre ++ evs) r.
Proof.
  unfold upload_verdict, contained.
  destruct o as [[]|e].
  all: repeat match goal with
       | |- context [if ?c then _ else _] => destruct c
       | |- context [match ?v with PyNone => _ | _ => _ end] => destruct v
       end.
  all: intuition auto using ends_with_app.
Qed.

Lemma upload_verdict_cons (o : outcome pyvalue) (ev : event) (evs : list event) r :
  upload_verdict o evs r -> upload_verdict o (ev :: evs) r.
Proof. apply (upload_verdict_app o [ev]). Qed.

Lemma contained_cons (e : exn) (ev : event) (evs : list event) r :
  contained e evs r -> contained e (ev :: evs) r.
Proof.
  unfold contained. destruct (is_Exception e); intuition auto using ends_with_cons.
Qed.

Lemma contained_app (e : exn) (pre evs : list event) r :
  contained e evs r -> contained e (pre ++ evs) r.
Proof.
  unfold contained. destruct (is_Exception e); intuition auto using ends_with_app.
Qed.

(** Unfolds a handler, leaving the mount helper and the upload step
    folded. *)
Ltac unfold_handler :=
  cbv [run handle_download handle_upload
       bind ret emit extern_path path_exists
       print logger_info logger_warning logger_error logger_error_exc_info].

(** Replaces the upload step by its events, its outcome and what
    [upload_block_cases] says about them. *)
Ltac enter_upload_block E p f s tr :=
  let evs := fresh "block_evs" in
  let r := fresh "block_r" in
  let Hblock := fresh "Hblock" in
  destruct (upload_block E p f s tr) as [evs r] eqn:Hblock;
  apply upload_block_cases in Hblock;
  destruct Hblock as (?Hkind & ?Hcall & ?Himport & ?Hfirst);
  destruct r as [[?code|]|?e];
  cbn [map_outcome exit_code] in *.

Ltac handler_step E :=
  match goal with
  | |- context [ensure_drive_mounted E ?tr] => enter_mount_helper E tr
  | |- context [try_except ?m ?cl ?tr] =>
      match m with
      | context [CUpload ?p ?f ?s] =>
          first [ change (try_except m cl tr) with (upload_block E p f s tr)
                | change (try_except m cl tr) with (upload_block_return E p f s tr);
                  rewrite (upload_block_return_eq E p f s tr) ]
      end
  | |- context [upload_block E ?p ?f ?s ?tr] => enter_upload_block E p f s tr
  | |- context [download_torrent E ?tr ?t ?d ?a] =>
      destruct (download_torrent E tr t d a) as [[?|]|?] eqn:?
  | |- context [os_path_exists E ?tr ?p] =>
      destruct (os_path_exists E tr p) eqn:?
  | |- context [if ?c then _ else _] =>
      first [ is_var c; destruct c | destruct c eqn:? ]
  end.

Ltac handler_cases E :=
  unfold_handler;
  repeat (handler_step E; cbn [app map_outcome exit_code]; rewrite ?app_nil_r).

(** Closes a case in which a value was tested with both results. *)
Ltac absurd_case :=
  solve [ exfalso;
          match goal with
          | H1 : truthy ?v = ?b, H2 : negb (truthy ?w) = ?b |- _ =>
              cbn [opt_value] in H1, H2; rewrite H1 in H2;
              destruct b; discriminate H2
          end ].

(** Names the trace and the outcome of the case at hand. *)
Ltac name_run :=
  let Hrun := fresh "Hrun" in
  intros Hrun; apply pair_equal_spec in Hrun; destruct Hrun as [<- <-].

(** A verdict on the upload step is a verdict on the whole run. *)
Ltac lift_verdict :=
  solve [ repeat first
            [ apply upload_verdict_cons | apply upload_verdict_app
            | apply contained_cons | apply contained_app
            | eassumption ] ].

(** How both handlers end once the upload collaborator was reached. *)
Lemma handlers_upload_verdict (E : Env) (args : Namespace) tr r :
  run (handle_download E args) = (tr, r) \/ run (handle_upload E args) = (tr, r) ->
  (forall c o, In (EvCall c o) tr -> is_upload_call (EvCall c o) = true ->
     upload_verdict o tr r)
  /\ (forall e, In (EvImport "gdrive_uploader" (Some e)) tr -> contained e tr r).
Proof.
  intros [Hrun|Hrun]; revert Hrun.
  all: handler_cases E.
  all: name_run.
  all: split;
    [ intros c o Hin Hup; destruct c; try discriminate Hup; clear Hup
    | intros e' Hin ];
    split_in.
  all: first [ apply Hcall in Hin; destruct Hin as [_ Hin]
             | apply Himport in Hin ].
  all: lift_verdict.
Qed.

(** ** Runs on the sample environments *)

Example download_completed :
  run (main plain_host download_args)
  = ((banner_download ++
      [EvLog Info "Starting download: magnet:?xt=abc" false;
       EvCall (CDownload "magnet:?xt=abc" "/tmp/out" true)
              (Ret (PyStr "/tmp/out/file.iso"));
       EvLog Info "Download completed: /tmp/out/file.iso" false])%list,
     Ret 0).
Proof. reflexivity. Qed.

Example upload_missing_path :
  run (main plain_host upload_missing_args)
  = ((banner_upload ++
      [EvMountHelper;
       EvImport "google.colab"
                (Some (mkExn ModuleNotFoundError "No module named 'google'"));
       EvPathExists "/missing/path" false;
       EvLog Error "Path does not exist: /missing/path" false])%list,
     Ret 1).
Proof. reflexivity. Qed.

Example status_found :
  run (handle_status plain_host status_args)
  = ([EvCall CStatus (Ret (PyBool true)); EvPrint msg_session_found], Ret 0).
Proof. reflexivity. Qed.

Example status_not_found :
  run (handle_status (with_status plain_host (Ret (PyBool false))) status_args)
  = ([EvCall CStatus (Ret (PyBool false)); EvPrint msg_no_session], Ret 0).
Proof. reflexivity. Qed.

(** ** Status and clear *)

(** C5, counterexample: the status-query collaborator raises: the status
    handler has no [try], so it prints nothing and does not return exit
    code 0; the exception leaves it. *)
Lemma status_collaborator_raises :
  run (handle_status
         (with_status plain_host (Raise (mkExn (OtherException "OSError") "unreadable")))
         status_args)
  = ([EvCall CStatus (Raise (mkExn (OtherException "OSError") "unreadable"))],
     Raise (mkExn (OtherException "OSError") "unreadable"))
  /\ ~ status_exits_zero
        (with_status plain_host (Raise (mkExn (OtherException "OSError") "unreadable")))
        status_args.
Proof.
  split; [reflexivity|].
  intros (answer & message & Hrun & _). discriminate Hrun.
Qed.

(** C5, amended: every run of the status handler starts by calling the
    status-query collaborator.  When the collaborator returns a value,
    the handler prints exactly one message, the first of two distinct
    fixed messages when the value is true and the second when it is
    false, and returns exit code 0.  When the collaborator raises, the
    handler prints nothing and the exception leaves the handler. *)
Theorem handle_status_outcome (E : Env) (args : Namespace) :
  run (handle_status E args)
  = match get_download_status E [] with
    | Ret v =>
        ([EvCall CStatus (Ret v);
          EvPrint (if truthy v then msg_session_found else msg_no_session)],
         Ret 0)
    | Raise e => ([EvCall CStatus (Raise e)], Raise e)
    end
  /\ msg_session_found <> msg_no_session.
Proof.
  split.
  - unfold run, handle_status, bind, extern.
    destruct (get_download_status E []) as [v|e]; [|reflexivity].
    destruct (truthy v); reflexivity.
  - discriminate.
Qed.

Lemma handle_status_outcome_witness :
  run (handle_status (with_status plain_host (Ret (PyBool false))) status_args)
  = ([EvCall CStatus (Ret (PyBool false)); EvPrint msg_no_session], Ret 0).
Proof.
  exact (proj1 (handle_status_outcome
                  (with_status plain_host (Ret (PyBool false))) status_args)).
Defined.

(** C6: when the clear-session collaborator returns a value, the clear
    handler returns exit code 0 after printing the success message if the
    value is true, and exit code 1 after printing the failure message if
    it is false. *)
Theorem handle_clear_mirrors_result (E : Env) (args : Namespace) (v : pyvalue) :
  clear_session E [] = Ret v ->
  run (handle_clear E args)
  = if truthy v
    then ([EvCall CClear (Ret v); EvPrint msg_session_cleared], Ret 0)
    else ([EvCall CClear (Ret v); EvPrint msg_clear_failed], Ret 1).
Proof.
  intros Hclear.
  unfold run, handle_clear, bind, extern. rewrite Hclear.
  destruct (truthy v); reflexivity.
Qed.

Lemma handle_clear_mirrors_result_witness :
  run (handle_clear (with_clear plain_host (Ret (PyBool false))) clear_args)
  = ([EvCall CClear (Ret (PyBool false)); EvPrint msg_clear_failed], Ret 1).
Proof.
  apply (handle_clear_mirrors_result
           (with_clear plain_host (Ret (PyBool false))) clear_args
           (PyBool false)).
  reflexivity.
Defined.

(** ** The download collaborator reports a failure *)

(** C2: in every run of the download handler in which the download
    collaborator returns an empty or otherwise falsy value, the handler
    logs the error "Download failed or cancelled" as its last action and
    returns exit code 1, and the upload collaborator is never called,
    whatever the upload flag says. *)
Theorem failed_download_skips_upload (E : Env) (args : Namespace) tr r t d a v :
  run (handle_download E args) = (tr, r) ->
  In (EvCall (CDownload t d a) (Ret v)) tr ->
  truthy v = false ->
  r = Ret 1
  /\ ends_with tr log_download_failed
  /\ never is_upload_call tr.
Proof.
  handler_cases E.
  all: name_run; intros Hin Hv; split_in.
  all: try absurd_case.
  all: repeat split; first [ reflexivity | show_ends_with | show_never ].
Qed.

Lemma failed_download_skips_upload_witness :
  let result :=
    run (handle_download (with_download plain_host (Ret None)) download_upload_args) in
  snd result = Ret 1
  /\ ends_with (fst result) log_download_failed
  /\ never is_upload_call (fst result).
Proof.
  apply (failed_download_skips_upload
           (with_download plain_host (Ret None)) download_upload_args
           _ _ "magnet:?xt=abc" "/tmp/out" true PyNone).
  - reflexivity.
  - cbn. auto 10.
  - reflexivity.
Defined.

(** ** The result of the upload *)

Example upload_with_failures :
  run (handle_upload
         (with_upload plain_host None
            (Ret (PyDict [("uploaded", PyList [PyStr "a"; PyStr "b"; PyStr "c"]);
                          ("failed", PyList [PyStr "d"])])))
         upload_args)
  = (banner_upload ++
     [EvMountHelper;
      EvImport "google.colab"
               (Some (mkExn ModuleNotFoundError "No module named 'google'"));
      EvPathExists "/tmp/out/file.iso" true;
      EvImport "gdrive_uploader" None;
      EvCall (CUpload "/tmp/out/file.iso" (Some "abc123") true)
             (Ret (PyDict [("uploaded", PyList [PyStr "a"; PyStr "b"; PyStr "c"]);
                           ("failed", PyList [PyStr "d"])]));
      EvLog Warning "Some files failed (1)" false],
     Ret 1).
Proof. reflexivity. Qed.

(** C3: in every run of the download or of the upload handler in which
    the upload collaborator is called and returns a mapping whose
    ["failed"] entry is a list, the handler ends with the warning
    "Some files failed (n)" and exit code 1 when the list is not empty,
    and with the log "Upload completed successfully!" and exit code 0
    when it is empty; the other entries of the mapping play no part. *)
Theorem upload_result_decides_exit_code
        (E : Env) (args : Namespace) tr r p f s entries items :
  run (handle_download E args) = (tr, r) \/ run (handle_upload E args) = (tr, r) ->
  In (EvCall (CUpload p f s) (Ret (PyDict entries))) tr ->
  dict_get entries "failed" = PyList items ->
  match items with
  | [] => r = Ret 0 /\ ends_with tr log_upload_completed
  | _ :: _ => r = Ret 1 /\ ends_with tr (log_some_failed (List.length items))
  end.
Proof.
  intros Hrun Hin Hfailed.
  destruct (handlers_upload_verdict E args tr r Hrun) as [Hverdict _].
  specialize (Hverdict _ _ Hin eq_refl).
  unfold upload_verdict in Hverdict. rewrite Hfailed in Hverdict.
  destruct items; exact Hverdict.
Qed.

Lemma upload_result_decides_exit_code_witness :
  let result :=
    run (handle_upload
           (with_upload plain_host None
              (Ret (PyDict [("uploaded", PyList [PyStr "a"; PyStr "b"; PyStr "c"]);
                            ("failed", PyList [PyStr "d"])])))
           upload_args) in
  snd result = Ret 1 /\ ends_with (fst result) (log_some_failed 1).
Proof.
  apply (upload_result_decides_exit_code
           (with_upload plain_host None
              (Ret (PyDict [("uploaded", PyList [PyStr "a"; PyStr "b"; PyStr "c"]);
                            ("failed", PyList [PyStr "d"])])))
           upload_args _ _ "/tmp/out/file.iso" (Some "abc123") true
           [("uploaded", PyList [PyStr "a"; PyStr "b"; PyStr "c"]);
            ("failed", PyList [PyStr "d"])]
           [PyStr "d"]).
  - right. reflexivity.
  - cbn. auto 10.
  - reflexivity.
Defined.

(** C10: in every run of the download or of the upload handler in which
    the upload collaborator returns a mapping that has no ["failed"] key,
    or whose ["failed"] entry is falsy ([None], an empty list, ...), the
    handler logs "Upload completed successfully!" and returns exit
    code 0: the entry is read with [get], which answers [None] for a
    missing key. *)
Theorem absent_failed_entry_is_success
        (E : Env) (args : Namespace) tr r p f s entries :
  run (handle_download E args) = (tr, r) \/ run (handle_upload E args) = (tr, r) ->
  In (EvCall (CUpload p f s) (Ret (PyDict entries))) tr ->
  dict_has_key entries "failed" = false
  \/ truthy (dict_get entries "failed") = false ->
  r = Ret 0 /\ ends_with tr log_upload_completed.
Proof.
  intros Hrun Hin Hfailed.
  assert (Hfalsy : truthy (dict_get entries "failed") = false).
  { destruct Hfailed as [Habsent|Hfalsy]; [|exact Hfalsy].
    rewrite (dict_get_absent _ _ Habsent). reflexivity. }
  destruct (handlers_upload_verdict E args tr r Hrun) as [Hverdict _].
  specialize (Hverdict _ _ Hin eq_refl).
  unfold upload_verdict in Hverdict. rewrite Hfalsy in Hverdict.
  exact Hverdict.
Qed.

Lemma absent_failed_entry_is_success_witness :
  let result :=
    run (handle_download
           (with_upload plain_host None (Ret (PyDict [("uploaded", PyList [])])))
           download_upload_args) in
  snd result = Ret 0 /\ ends_with (fst result) log_upload_completed.
Proof.
  apply (absent_failed_entry_is_success
           (with_upload plain_host None (Ret (PyDict [("uploaded", PyList [])])))
           download_upload_args _ _ "/tmp/out/file.iso" (Some "abc123") true
           [("uploaded", PyList [])]).
  - left. reflexivity.
  - cbn. auto 20.
  - left. reflexivity.
Defined.

(** ** Exceptions of the upload collaborator *)

Example upload_interrupted :
  run (handle_upload
         (with_upload plain_host None (Raise (mkExn KeyboardInterrupt "")))
         upload_args)
  = (banner_upload ++
     [EvMountHelper;
      EvImport "google.colab"
               (Some (mkExn ModuleNotFoundError "No module named 'google'"));
      EvPathExists "/tmp/out/file.iso" true;
      EvImport "gdrive_uploader" None;
      EvCall (CUpload "/tmp/out/file.iso" (Some "abc123") true)
             (Raise (mkExn KeyboardInterrupt ""))],
     Raise (mkExn KeyboardInterrupt "")).
Proof. reflexivity. Qed.




(** ** Upload requested without a folder identifier *)

Example download_mount_interrupted :
  run (handle_download (notebook (Raise (mkExn KeyboardInterrupt "")))
                       download_no_folder_args)
  = (banner_download ++
     [EvMountHelper;
      EvImport "google.colab" None;
      EvImport "google.colab.drive" None;
      EvPathExists "/content/drive/MyDrive" false;
      EvPrint "Mounting Google Drive...";
      EvCall (CDriveMount "/content/drive") (Raise (mkExn KeyboardInterrupt ""))],
     Raise (mkExn KeyboardInterrupt "")).
Proof. reflexivity. Qed.

(** C1, counterexample: [download -d /content/drive/MyDrive/torrents
    --upload] without [--folder-id], in a notebook whose drive is not
    mounted and where [drive.mount] is interrupted: the mount helper runs
    before the check of the folder identifier and its exception leaves the
    handler, so the error is not logged and exit code 1 is not returned. *)
Lemma folder_id_check_counterexample :
  upload download_no_folder_args = true
  /\ folder_id download_no_folder_args = None
  /\ ~ fails_fast_without_folder_id
         (notebook (Raise (mkExn KeyboardInterrupt ""))) download_no_folder_args.
Proof.
  split; [reflexivity|]. split; [reflexivity|].
  intros (tr & Hrun & _). discriminate Hrun.
Qed.

(** C1, amended: in every run of the download handler with the upload
    flag set and no folder identifier (none given, or an empty one),
    neither the download nor the upload collaborator is called.  When
    the mount helper, which runs first if the destination starts with
    [/content/drive], comes back without raising, or is not run, the
    handler logs the error "--folder-id is required when using --upload"
    as its last action and returns exit code 1.  An exception raised
    inside the mount helper that is no [ImportError] leaves the handler
    before the check: the run ends with the events of the helper and
    with that exception. *)
Theorem folder_id_required_for_upload (E : Env) (args : Namespace) :
  upload args = true ->
  truthy (opt_value (folder_id args)) = false ->
  (never is_download_call (fst (run (handle_download E args)))
   /\ never is_upload_call (fst (run (handle_download E args))))
  /\ ((startswith (destination args) "/content/drive" = true ->
       mount_helper_returns E banner_download) ->
      fails_fast_without_folder_id E args)
  /\ (forall e,
        startswith (destination args) "/content/drive" = true ->
        raised_in e (fst (ensure_drive_mounted E banner_download)) ->
        is_ImportError e = false ->
        run (handle_download E args)
        = (banner_download ++ fst (ensure_drive_mounted E banner_download),
           Raise e)).
Proof.
  intros Hupload Hfolder.
  unfold fails_fast_without_folder_id, mount_helper_returns, banner_download.
  unfold_handler. rewrite Hupload, Hfolder. cbn [andb negb app].
  destruct (startswith (destination args) "/content/drive").
  - destruct (ensure_drive_mounted_events
                E [EvPrint rule; EvPrint "TORRENT DOWNLOADER"; EvPrint rule])
      as (evs & r & Hmount & Hevs & Hraise).
    rewrite Hmount. destruct r as [[]|e]; cbn [app fst snd].
    + split; [split; show_never|]. split.
      * intros _. eexists. split; [reflexivity|].
        repeat split; first [ show_ends_with | show_never ].
      * intros e _ Hraised Himp.
        discriminate (Hraise e (raised_after_entry e evs Hraised) Himp).
    + split; [split; show_never|]. split.
      * intros Hreturns. specialize (Hreturns eq_refl). discriminate Hreturns.
      * intros e' _ Hraised Himp.
        injection (Hraise e' (raised_after_entry e' evs Hraised) Himp) as ->.
        reflexivity.
  - cbn [app fst snd]. split; [split; show_never|]. split.
    + intros _. eexists. split; [reflexivity|].
      repeat split; first [ show_ends_with | show_never ].
    + intros e Hdest. discriminate Hdest.
Qed.

Lemma folder_id_required_for_upload_witness :
  fails_fast_without_folder_id (notebook (Ret PyNone)) download_no_folder_args.
Proof.
  apply (proj1 (proj2 (folder_id_required_for_upload
                         (notebook (Ret PyNone)) download_no_folder_args
                         eq_refl eq_refl))).
  intros _. reflexivity.
Defined.

(** ** The upload handler: mount, check, upload *)

Example upload_mount_interrupted :
  run (handle_upload (notebook (Raise (mkExn KeyboardInterrupt ""))) upload_missing_args)
  = (banner_upload ++
     [EvMountHelper;
      EvImport "google.colab" None;
      EvImport "google.colab.drive" None;
      EvPathExists "/content/drive/MyDrive" false;
      EvPrint "Mounting Google Drive...";
      EvCall (CDriveMount "/content/drive") (Raise (mkExn KeyboardInterrupt ""))],
     Raise (mkExn KeyboardInterrupt "")).
Proof. reflexivity. Qed.

(** C7, counterexample: [upload -p /missing/path -f abc123] in a notebook
    whose drive is not mounted and where [drive.mount] is interrupted:
    the path exists at no time, yet the handler neither logs
    "Path does not exist: /missing/path" nor returns exit code 1, because
    the mount helper runs before the check and its exception leaves the
    handler. *)
Lemma missing_path_counterexample :
  (forall tr,
      os_path_exists (notebook (Raise (mkExn KeyboardInterrupt ""))) tr
                     (path upload_missing_args) = false)
  /\ ~ rejects_missing_path (notebook (Raise (mkExn KeyboardInterrupt "")))
                            upload_missing_args.
Proof.
  split; [reflexivity|].
  intros (tr & Hrun & _). discriminate Hrun.
Qed.

(** C7, amended: in every run of the upload handler in which the local
    path does not exist when the handler checks it, that is after the
    mount helper, the upload collaborator is never called; and when the
    mount helper came back without raising, the handler logs
    "Path does not exist: <path>" as its last action and returns exit
    code 1.  An exception raised inside the mount helper that is no
    [ImportError] leaves the handler before the check: the run ends with
    the events of the helper and with that exception. *)
Theorem missing_path_rejected (E : Env) (args : Namespace) :
  os_path_exists E (banner_upload ++ fst (ensure_drive_mounted E banner_upload))
                 (path args) = false ->
  never is_upload_call (fst (run (handle_upload E args)))
  /\ (mount_helper_returns E banner_upload -> rejects_missing_path E args)
  /\ (forall e,
        raised_in e (fst (ensure_drive_mounted E banner_upload)) ->
        is_ImportError e = false ->
        run (handle_upload E args)
        = (banner_upload ++ fst (ensure_drive_mounted E banner_upload),
           Raise e)).
Proof.
  unfold rejects_missing_path, mount_helper_returns, banner_upload.
  unfold_handler. cbn [app].
  destruct (ensure_drive_mounted_events
              E [EvPrint rule; EvPrint "GOOGLE DRIVE UPLOADER"; EvPrint rule])
    as (evs & r & Hmount & Hevs & Hraise).
  rewrite Hmount. cbn [app fst snd]. intros Hmissing.
  destruct r as [[]|e].
  - rewrite Hmissing. cbn [app fst snd negb]. split; [show_never|]. split.
    + intros _. eexists. split; [reflexivity|].
      split; first [ show_ends_with | show_never ].
    + intros e Hraised Himp.
      discriminate (Hraise e (raised_after_entry e evs Hraised) Himp).
  - cbn [fst]. split; [show_never|]. split.
    + intros Hreturns. discriminate Hreturns.
    + intros e' Hraised Himp.
      injection (Hraise e' (raised_after_entry e' evs Hraised) Himp) as ->.
      reflexivity.
Qed.

Lemma missing_path_rejected_witness :
  rejects_missing_path plain_host upload_missing_args.
Proof.
  apply (proj1 (proj2 (missing_path_rejected
                         plain_host upload_missing_args eq_refl))).
  reflexivity.
Defined.

(** C9, counterexample: [upload -p /missing/path -f abc123] on a plain
    host: the path exists at no time and the handler returns exit code 1,
    but the mount helper was invoked before the path was checked. *)
Lemma mount_precedes_path_check :
  (forall tr, os_path_exists plain_host tr (path upload_missing_args) = false)
  /\ ~ validates_before_mounting plain_host upload_missing_args.
Proof.
  split; [reflexivity|].
  intros (tr & Hrun & Hnever).
  apply pair_equal_spec in Hrun. destruct Hrun as [<- _].
  discriminate Hnever.
Qed.

(** C9, amended: every run of the upload handler performs its steps in
    this order.  After the banner the mount helper is invoked; if it
    raises, the handler stops there with its exception.  Otherwise the
    handler checks that the local path exists; if it does not, the
    handler logs the error and returns exit code 1.  Otherwise it goes on
    to the upload: every collaborator call after the check is the upload
    call with (path, folder identifier, negation of the no-skip flag),
    and this call follows the import of the uploader module when that
    import succeeds. *)
Theorem upload_steps_in_order (E : Env) (args : Namespace) :
  let mount := ensure_drive_mounted E banner_upload in
  let checked := banner_upload ++ fst mount in
  let exists_ := os_path_exists E checked (path args) in
  let upload_call :=
    CUpload (path args) (folder_id args) (negb (no_skip args)) in
  (exists evs, fst mount = EvMountHelper :: evs)
  /\ match snd mount with
     | Raise e => run (handle_upload E args) = (checked, Raise e)
     | Ret _ =>
         if exists_ then
           exists rest r,
             run (handle_upload E args)
             = (checked ++ EvPathExists (path args) true :: rest, r)
             /\ (forall c o, In (EvCall c o) rest -> c = upload_call)
             /\ (import_gdrive_uploader
                   E (checked ++ [EvPathExists (path args) true]) = None ->
                 exists o rest',
                   rest = EvImport "gdrive_uploader" None
                          :: EvCall upload_call o :: rest')
         else
           run (handle_upload E args)
           = (checked ++ [EvPathExists (path args) false;
                          log_path_missing (path args)],
              Ret 1)
     end.
Proof.
  unfold banner_upload. cbv zeta.
  unfold_handler. cbn [app].
  destruct (ensure_drive_mounted_events
              E [EvPrint rule; EvPrint "GOOGLE DRIVE UPLOADER"; EvPrint rule])
    as (evs & r & Hmount & Hevs & _).
  rewrite Hmount. cbn [app fst snd].
  split; [eauto|].
  destruct r as [[]|e]; [|reflexivity].
  destruct (os_path_exists E _ (path args)); cbn [negb]; [|reflexivity].
  handler_step E. cbn [app].
  match goal with
  | |- context [upload_block E ?p ?f ?s ?tr] =>
      destruct (upload_block E p f s tr) as [block_evs block_r] eqn:Hblock
  end.
  apply upload_block_cases in Hblock.
  destruct Hblock as (_ & Hcall & _ & Hfirst).
  exists block_evs, (map_outcome exit_code block_r).
  split; [reflexivity|]. split.
  - intros c o Hin. apply (Hcall c o Hin).
  - intros Himport. apply Hfirst. exact Himport.
Qed.

Lemma upload_steps_in_order_witness :
  run (handle_upload plain_host upload_missing_args)
  = ((banner_upload ++ fst (ensure_drive_mounted plain_host banner_upload)) ++
     [EvPathExists "/missing/path" false; log_path_missing "/missing/path"],
     Ret 1).
Proof.
  exact (proj2 (upload_steps_in_order plain_host upload_missing_args)).
Defined.

(** ** The top-level dispatcher *)

(** No handler logs a traceback. *)
Lemma dispatch_never_traceback (E : Env) (args : Namespace) tr r :
  dispatch E args [] = (tr, r) -> never is_traceback tr.
Proof.
  unfold dispatch.
  repeat match goal with
         | |- context [if ?c then _ else _] => destruct c
         end.
  - change (handle_download E args []) with (run (handle_download E args)).
    handler_cases E; name_run; show_never.
  - change (handle_upload E args []) with (run (handle_upload E args)).
    handler_cases E; name_run; show_never.
  - unfold handle_status. unfold_handler. cbv [extern].
    destruct (get_download_status E []) as [v|e]; [destruct (truthy v)|];
      name_run; reflexivity.
  - unfold handle_clear. unfold_handler. cbv [extern].
    destruct (clear_session E []) as [v|e]; [destruct (truthy v)|];
      name_run; reflexivity.
  - unfold_handler. name_run. reflexivity.
Qed.

Example download_exits :
  run (main (with_download plain_host (Raise (mkExn SystemExit "3"))) download_args)
  = (banner_download ++
     [EvLog Info "Starting download: magnet:?xt=abc" false;
      EvCall (CDownload "magnet:?xt=abc" "/tmp/out" true)
             (Raise (mkExn SystemExit "3"))],
     Raise (mkExn SystemExit "3")).
Proof. reflexivity. Qed.

Example download_interrupted :
  run (main (with_download plain_host (Raise (mkExn KeyboardInterrupt ""))) download_args)
  = (banner_download ++
     [EvLog Info "Starting download: magnet:?xt=abc" false;
      EvCall (CDownload "magnet:?xt=abc" "/tmp/out" true)
             (Raise (mkExn KeyboardInterrupt ""));
      print_cancelled],
     Ret 130).
Proof. reflexivity. Qed.

(** Follows an exception that [except Exception] does not catch from the
    event that raised it to the outcome of the step it was raised in. *)
Ltac follow_raise Hexn Himp :=
  let Hfate := fresh "Hfate" in
  match goal with
  | Hin : In (EvCall ?c (Raise ?e)) ?evs,
    Hr : forall e', raised_in e' ?evs -> is_ImportError e' = false -> _ |- _ =>
      pose proof (Hr e (or_introl (ex_intro _ c Hin)) Himp) as Hfate
  | Hin : In (EvImport ?m (Some ?e)) ?evs,
    Hr : forall e', raised_in e' ?evs -> is_ImportError e' = false -> _ |- _ =>
      pose proof (Hr e (or_intror (ex_intro _ m Hin)) Himp) as Hfate
  | Hin : In (EvCall ?c (Raise ?e)) ?evs,
    Hcall : forall c' o, In (EvCall c' o) ?evs -> _ |- _ =>
      destruct (Hcall _ _ Hin) as [_ Hfate];
      unfold upload_verdict, contained in Hfate; rewrite Hexn in Hfate
  | Hin : In (EvImport ?m (Some ?e)) ?evs,
    Hkind : forallb is_upload_event ?evs = true,
    Himport : forall e', In (EvImport _ (Some e')) ?evs -> _ |- _ =>
      let Hm := fresh "Hm" in
      pose proof (kind_of_member _ _ _ Hkind Hin) as Hm;
      cbn [is_upload_event] in Hm; apply String.eqb_eq in Hm; subst m;
      pose proof (Himport _ Hin) as Hfate;
      unfold contained in Hfate; rewrite Hexn in Hfate
  end;
  first [ discriminate Hfate | exact Hfate
        | injection Hfate as Hfate; rewrite Hfate; reflexivity ].

(** An exception that [except Exception] does not catch, raised while a
    handler runs, leaves the handler. *)
Lemma base_exception_escapes_handler (E : Env) (args : Namespace) tr r (e : exn) :
  dispatch E args [] = (tr, r) ->
  raised_in e tr ->
  is_Exception e = false ->
  r = Raise e.
Proof.
  intros Hdispatch Hraised Hexn.
  assert (Himp : is_ImportError e = false).
  { destruct (is_ImportError e) eqn:Himp; [|reflexivity].
    rewrite (ImportError_is_Exception e Himp) in Hexn. discriminate Hexn. }
  revert Hdispatch Hraised. unfold dispatch.
  repeat match goal with
         | |- context [if ?c then _ else _] => destruct c
         end.
  - change (handle_download E args []) with (run (handle_download E args)).
    handler_cases E; name_run; intros [[c Hin]|[m Hin]]; split_in.
    all: first [ reflexivity | follow_raise Hexn Himp ].
  - change (handle_upload E args []) with (run (handle_upload E args)).
    handler_cases E; name_run; intros [[c Hin]|[m Hin]]; split_in.
    all: first [ reflexivity | follow_raise Hexn Himp ].
  - unfold handle_status. unfold_handler. cbv [extern].
    destruct (get_download_status E []) as [v|e0]; [destruct (truthy v)|];
      name_run; intros [[c Hin]|[m Hin]]; split_in; reflexivity.
  - unfold handle_clear. unfold_handler. cbv [extern].
    destruct (clear_session E []) as [v|e0]; [destruct (truthy v)|];
      name_run; intros [[c Hin]|[m Hin]]; split_in; reflexivity.
  - unfold_handler. name_run. intros [[c Hin]|[m Hin]]; split_in.
Qed.

(** C8, counterexample: the download collaborator raises [SystemExit]:
    the exception escapes the download handler, it is not a keyboard
    interrupt, and [main] neither logs it nor returns exit code 1,
    because [except Exception] does not catch it. *)
Lemma system_exit_escapes_main :
  ~ translates_exception
      (with_download plain_host (Raise (mkExn SystemExit "3"))) download_args
      (mkExn SystemExit "3").
Proof.
  intros Hclaim.
  destruct (Hclaim _ _ eq_refl eq_refl) as [_ Hother].
  specialize (Hother eq_refl eq_refl). discriminate Hother.
Qed.

(** C8, amended: for every command dispatched by [main].  When a keyboard
    interrupt is raised while the handler runs, [main] prints
    "Operation cancelled by user" after what the handler did and returns
    exit code 130, and no log record of the run carries a traceback.
    When another exception escapes the handler and is an instance of
    [Exception], [main] logs "Operation failed: ..." with the traceback
    and returns exit code 1.  Any other exception that escapes the
    handler ([SystemExit], [GeneratorExit]) leaves [main]. *)
Theorem main_translates_exceptions (E : Env) (args : Namespace) (e : exn) tr r :
  truthy (opt_value (command args)) = true ->
  dispatch E args [] = (tr, r) ->
  (is_KeyboardInterrupt e = true -> raised_in e tr ->
   run (main E args) = (tr ++ [print_cancelled], Ret 130)
   /\ never is_traceback (tr ++ [print_cancelled]))
  /\ (is_Exception e = true -> r = Raise e ->
      run (main E args) = (tr ++ [log_operation_failed e], Ret 1))
  /\ (is_KeyboardInterrupt e = false -> is_Exception e = false -> r = Raise e ->
      run (main E args) = (tr, Raise e)).
Proof.
  intros Hcommand Hdispatch.
  pose proof (dispatch_never_traceback E args tr _ Hdispatch) as Hquiet.
  unfold run, main. rewrite Hcommand. cbn [negb].
  unfold try_except. rewrite Hdispatch.
  split; [|split].
  - intros Hki Hraised.
    rewrite (base_exception_escapes_handler
               E args tr r e Hdispatch Hraised
               (KeyboardInterrupt_not_Exception e Hki)).
    cbn [select_clause]. rewrite Hki. split; [reflexivity|].
    apply never_app; [exact Hquiet | reflexivity].
  - intros Hexn ->. cbn [select_clause].
    destruct (is_KeyboardInterrupt e) eqn:Hki.
    + rewrite (KeyboardInterrupt_not_Exception e Hki) in Hexn. discriminate Hexn.
    + rewrite Hexn. reflexivity.
  - intros Hki Hexn ->. cbn [select_clause]. rewrite Hki, Hexn.
    unfold raise. rewrite app_nil_r. reflexivity.
Qed.

Lemma main_translates_exceptions_witness :
  let tr :=
    banner_download ++
    [EvLog Info "Starting download: magnet:?xt=abc" false;
     EvCall (CDownload "magnet:?xt=abc" "/tmp/out" true)
            (Raise (mkExn KeyboardInterrupt ""))] in
  run (main (with_download plain_host (Raise (mkExn KeyboardInterrupt "")))
            download_args)
  = (tr ++ [print_cancelled], Ret 130)
  /\ never is_traceback (tr ++ [print_cancelled]).
Proof.
  apply (main_translates_exceptions
           (with_download plain_host (Raise (mkExn KeyboardInterrupt "")))
           download_args (mkExn KeyboardInterrupt "")
           (banner_download ++
            [EvLog Info "Starting download: magnet:?xt=abc" false;
             EvCall (CDownload "magnet:?xt=abc" "/tmp/out" true)
                    (Raise (mkExn KeyboardInterrupt ""))])
           (Raise (mkExn KeyboardInterrupt ""))).
  - reflexivity.
  - reflexivity.
  - reflexivity.
  - left. exists (CDownload "magnet:?xt=abc" "/tmp/out" true). cbn. auto 10.
Defined.

(** * Further properties of the entry point *)

(** ** The mount helper *)

(** X1: the mount helper never lets an [ImportError] out: whatever the
    imports and [drive.mount] do, an exception that leaves the helper is
    not an instance of [ImportError]. *)
Theorem mount_helper_swallows_import_errors (E : Env) (tr : trace) (e : exn) :
  snd (ensure_drive_mounted E tr) = Raise e -> is_ImportError e = false.
Proof.
  unfold ensure_drive_mounted. unfold_run.
  destruct (import_google_colab E _) as [e1|]; cbn [app].
  - destruct (is_ImportError e1) eqn:H1; cbn [snd]; intros [= <-];
      first [exact H1 | discriminate].
  - destruct (import_colab_drive E _) as [e2|]; cbn [app].
    + destruct (is_ImportError e2) eqn:H2; cbn [snd]; intros [= <-];
        first [exact H2 | discriminate].
    + destruct (os_path_exists E _ _); cbn [app negb snd]; [discriminate|].
      destruct (drive_mount E _ _) as [v|e3]; cbn [app snd]; [discriminate|].
      destruct (is_ImportError e3) eqn:H3; cbn [snd]; intros [= <-];
        first [exact H3 | discriminate].
Qed.

Lemma mount_helper_swallows_import_errors_witness :
  is_ImportError (mkExn KeyboardInterrupt "") = false.
Proof.
  apply (mount_helper_swallows_import_errors
           (notebook (Raise (mkExn KeyboardInterrupt ""))) banner_upload).
  reflexivity.
Defined.

(** X2: the mount helper calls [drive.mount] only on [/content/drive],
    and it calls it exactly when both imports of the notebook library
    succeed and [/content/drive/MyDrive] does not exist at that moment:
    outside a notebook, or with the drive already mounted, nothing is
    mounted. *)
Theorem drive_mounted_only_when_needed (E : Env) (tr : trace) :
  let tr1 := tr ++ [EvMountHelper] in
  let tr2 := tr1 ++ [EvImport "google.colab" None] in
  let tr3 := tr2 ++ [EvImport "google.colab.drive" None] in
  let evs := fst (ensure_drive_mounted E tr) in
  (forall m o, In (EvCall (CDriveMount m) o) evs -> m = "/content/drive"%string)
  /\ ((exists o, In (EvCall (CDriveMount "/content/drive") o) evs)
      <-> import_google_colab E tr1 = None
          /\ import_colab_drive E tr2 = None
          /\ os_path_exists E tr3 "/content/drive/MyDrive" = false).
Proof.
  cbv zeta. unfold ensure_drive_mounted. unfold_run.
  destruct (import_google_colab E _) as [e1|]; cbn [app].
  - destruct (is_ImportError e1); cbn [app fst].
    all: split; [intros m o Hin; split_in|].
    all: split; [intros [o Hin]; split_in | intros (H & _); discriminate H].
  - destruct (import_colab_drive E _) as [e2|]; cbn [app].
    + destruct (is_ImportError e2); cbn [app fst].
      all: split; [intros m o Hin; split_in|].
      all: split; [intros [o Hin]; split_in | intros (_ & H & _); discriminate H].
    + destruct (os_path_exists E _ _); cbn [app negb fst].
      * split; [intros m o Hin; split_in|].
        split; [intros [o Hin]; split_in | intros (_ & _ & H); discriminate H].
      * destruct (drive_mount E _ _) as [v|e3]; cbn [app fst];
          [|destruct (is_ImportError e3); cbn [app fst]].
        all: split; [intros m o Hin; split_in; reflexivity|].
        all: split; [intros _; auto | intros _; eexists; cbn; eauto 10].
Qed.

(** ** Case analysis with the details of the upload step *)

Lemma subsequence_app_skip (evs pre tr : list event) :
  subsequence evs tr -> subsequence evs (pre ++ tr).
Proof.
  intros H. induction pre as [|ev pre IH]; [exact H|].
  cbn. apply sub_skip, IH.
Qed.

Lemma subsequence_member (ev : event) (tr : list event) :
  In ev tr -> subsequence [ev] tr.
Proof.
  induction tr as [|ev' tr IH]; [intros []|].
  intros [->|Hin].
  - apply sub_take, sub_nil.
  - apply sub_skip, IH, Hin.
Qed.

(** More about the upload step: its exit code, its last log record after
    the upload returned, and what a failed import leaves behind. *)
Lemma upload_block_details (E : Env) p f s tr evs r :
  upload_block E p f s tr = (evs, r) ->
  (forall code, r = Ret (Some code) -> code = 1)
  /\ (forall c v, In (EvCall c (Ret v)) evs ->
        ends_with evs (result_log v)
        /\ map_outcome exit_code r = Ret (result_code v))
  /\ (forall e, In (EvImport "gdrive_uploader" (Some e)) evs ->
        never is_upload_call evs
        /\ (is_ImportError e = true ->
            In (log_import_failed e) evs /\ In print_install_hint evs)
        /\ (is_ImportError e = false -> ~ In print_install_hint evs)).
Proof.
  run_cases E.
  all: intros Hrun; apply pair_equal_spec in Hrun; destruct Hrun as [<- <-].
  all: split; [intros code [= <-]; reflexivity | ].
  all: split;
    [ intros c v Hin; split_in;
      cbv [result_log result_code map_outcome exit_code];
      use_equations; cbn [truthy negb]; use_equations;
      (split; [show_ends_with | reflexivity])
    | ].
  all: unfold print_install_hint, log_import_failed.
  all: intros e' Hin; split_in.
  all: split; [show_never|].
  all: split;
    [ intros He; first [ congruence | split; cbn [In]; auto 12 ]
    | intros He Hhint; split_in; congruence ].
Qed.


(** Like [enter_upload_block], with [upload_block_details] as well. *)
Ltac enter_upload_step E p f s tr :=
  let evs := fresh "block_evs" in
  let r := fresh "block_r" in
  let Hblock := fresh "Hblock" in
  destruct (upload_block E p f s tr) as [evs r] eqn:Hblock;
  pose proof (upload_block_details E p f s tr evs r Hblock)
    as (?Hcode & ?Hresult & ?Hnoimport);
  apply upload_block_cases in Hblock;
  destruct Hblock as (?Hkind & ?Hcall & ?Himport & ?Hfirst);
  destruct r as [[?code|]|?e];
  [ rewrite (Hcode _ eq_refl) in * | | ];
  cbn [map_outcome exit_code] in *.

Ltac detailed_step E :=
  match goal with
  | |- context [ensure_drive_mounted E ?tr] => enter_mount_helper E tr
  | |- context [try_except ?m ?cl ?tr] =>
      match m with
      | context [CUpload ?p ?f ?s] =>
          first [ change (try_except m cl tr) with (upload_block E p f s tr)
                | change (try_except m cl tr) with (upload_block_return E p f s tr);
                  rewrite (upload_block_return_eq E p f s tr) ]
      end
  | |- context [upload_block E ?p ?f ?s ?tr] => enter_upload_step E p f s tr
  | |- context [download_torrent E ?tr ?t ?d ?a] =>
      destruct (download_torrent E tr t d a) as [[?|]|?] eqn:?
  | |- context [os_path_exists E ?tr ?p] =>
      destruct (os_path_exists E tr p) eqn:?
  | |- context [if ?c then _ else _] =>
      first [ is_var c; destruct c | destruct c eqn:? ]
  end.

Ltac detailed_cases E :=
  unfold_handler;
  repeat (detailed_step E; cbn [app map_outcome exit_code]; rewrite ?app_nil_r).

(** The handlers return exit code 0 or 1 only. *)
Lemma handlers_exit_codes (E : Env) (args : Namespace) tr code :
  dispatch E args [] = (tr, Ret code) -> code = 0 \/ code = 1.
Proof.
  unfold dispatch.
  repeat match goal with
         | |- context [if ?c then _ else _] => destruct c
         end.
  - change (handle_download E args []) with (run (handle_download E args)).
    detailed_cases E; intros [= _ <-]; auto.
  - change (handle_upload E args []) with (run (handle_upload E args)).
    detailed_cases E; intros [= _ <-]; auto.
  - unfold handle_status. unfold_handler. cbv [extern].
    destruct (get_download_status E []) as [v|e0]; [destruct (truthy v)|];
      intros [= _ <-]; auto.
  - unfold handle_clear. unfold_handler. cbv [extern].
    destruct (clear_session E []) as [v|e0]; [destruct (truthy v)|];
      intros [= _ <-]; auto.
  - unfold_handler. intros [= _ <-]; auto.
Qed.

(** ** The top-level dispatcher as a backstop *)

(** X3: whenever [main] returns, the exit code is 0, 1 or 130, whatever
    the command and whatever the collaborators do. *)
Theorem main_exit_codes (E : Env) (args : Namespace) tr code :
  run (main E args) = (tr, Ret code) ->
  code = 0 \/ code = 1 \/ code = 130.
Proof.
  unfold run, main.
  destruct (truthy (opt_value (command args))); cbn [negb].
  - unfold try_except.
    destruct (dispatch E args []) as [tr0 [c|e]] eqn:Hdispatch.
    + intros [= _ <-].
      destruct (handlers_exit_codes E args tr0 c Hdispatch); auto.
    + cbn [select_clause].
      destruct (is_KeyboardInterrupt e); [intros [= _ <-]; auto|].
      destruct (is_Exception e); [intros [= _ <-]; auto|].
      discriminate.
  - intros [= _ <-]. auto.
Qed.

Lemma main_exit_codes_witness :
  130 = 0 \/ 130 = 1 \/ 130 = 130.
Proof.
  apply (main_exit_codes
           (with_download plain_host (Raise (mkExn KeyboardInterrupt "")))
           download_args
           (banner_download ++
            [EvLog Info "Starting download: magnet:?xt=abc" false;
             EvCall (CDownload "magnet:?xt=abc" "/tmp/out" true)
                    (Raise (mkExn KeyboardInterrupt ""));
             print_cancelled])).
  reflexivity.
Defined.

(** X4: no keyboard interrupt and no instance of [Exception] leaves
    [main]: an exception that leaves it is neither. *)
Theorem main_is_a_backstop (E : Env) (args : Namespace) tr (e : exn) :
  run (main E args) = (tr, Raise e) ->
  is_KeyboardInterrupt e = false /\ is_Exception e = false.
Proof.
  unfold run, main.
  destruct (truthy (opt_value (command args))); cbn [negb]; [|discriminate].
  unfold try_except.
  destruct (dispatch E args []) as [tr0 [c|e0]]; [discriminate|].
  cbn [select_clause].
  destruct (is_KeyboardInterrupt e0) eqn:Hki; [discriminate|].
  destruct (is_Exception e0) eqn:Hexn; [discriminate|].
  unfold raise. intros [= _ <-]. auto.
Qed.

Lemma main_is_a_backstop_witness :
  is_KeyboardInterrupt (mkExn SystemExit "3") = false
  /\ is_Exception (mkExn SystemExit "3") = false.
Proof.
  apply (main_is_a_backstop
           (with_download plain_host (Raise (mkExn SystemExit "3")))
           download_args
           (banner_download ++
            [EvLog Info "Starting download: magnet:?xt=abc" false;
             EvCall (CDownload "magnet:?xt=abc" "/tmp/out" true)
                    (Raise (mkExn SystemExit "3"))])).
  reflexivity.
Defined.

(** ** The download handler *)

(** Finds events in their order in an explicit trace. *)
Ltac show_subsequence :=
  solve [ repeat first
            [ apply sub_nil
            | apply sub_take
            | apply sub_skip
            | apply subsequence_app_skip
            | apply subsequence_member; eassumption ] ].

(** Closes a case in which [None] passed for a downloaded path. *)
Ltac no_download :=
  solve [ exfalso;
          match goal with
          | H : negb (truthy (opt_value None)) = false |- _ => discriminate H
          end ].

Lemma truthy_path (p : string) :
  negb (truthy (opt_value (Some p))) = false -> p <> ""%string.
Proof.
  cbn. rewrite negb_involutive. apply String.eqb_neq.
Qed.

(** X5: the download handler calls the upload collaborator only after a
    successful download, with the downloaded path: whenever the upload is
    called, the upload flag is set, the folder identifier is present and
    not empty, the arguments are (downloaded path, folder identifier,
    negation of the no-skip flag), and before it, in this order, the
    download collaborator returned that non-empty path and the mount
    helper was invoked again. *)
Theorem upload_follows_download (E : Env) (args : Namespace) tr r p f s o :
  run (handle_download E args) = (tr, r) ->
  In (EvCall (CUpload p f s) o) tr ->
  upload args = true
  /\ folder_id args = f
  /\ truthy (opt_value f) = true
  /\ s = negb (no_skip args)
  /\ p <> ""%string
  /\ subsequence
       [EvCall (CDownload (torrent args) (destination args) (negb (no_resume args)))
               (Ret (PyStr p));
        EvMountHelper;
        EvCall (CUpload p f s) o]
       tr.
Proof.
  handler_cases E.
  all: name_run; intros Hin; split_in.
  all: try no_download.
  all: destruct (Hcall _ _ Hin) as [Hargs _]; injection Hargs as -> -> ->.
  all: cbn [andb opt_str] in *.
  all: repeat split;
    first [ assumption | reflexivity
          | apply negb_false_iff; assumption
          | apply truthy_path; assumption
          | show_subsequence ].
Qed.

Lemma upload_follows_download_witness :
  subsequence
    [EvCall (CDownload "magnet:?xt=abc" "/tmp/out" true)
            (Ret (PyStr "/tmp/out/file.iso"));
     EvMountHelper;
     EvCall (CUpload "/tmp/out/file.iso" (Some "abc123") true)
            (Ret (PyDict [("uploaded", PyList [PyStr "file.iso"]);
                          ("failed", PyList [])]))]
    (fst (run (handle_download plain_host download_upload_args))).
Proof.
  apply (upload_follows_download
           plain_host download_upload_args
           (fst (run (handle_download plain_host download_upload_args)))
           (snd (run (handle_download plain_host download_upload_args)))
           "/tmp/out/file.iso" (Some "abc123") true
           (Ret (PyDict [("uploaded", PyList [PyStr "file.iso"]);
                         ("failed", PyList [])]))).
  - reflexivity.
  - cbn. auto 20.
Defined.

(** X6: the download handler calls the download collaborator with
    (torrent, destination, negation of the no-resume flag) and with
    nothing else, after it has logged "Starting download: <torrent>". *)
Theorem download_called_as_requested (E : Env) (args : Namespace) tr r t d a o :
  run (handle_download E args) = (tr, r) ->
  In (EvCall (CDownload t d a) o) tr ->
  t = torrent args
  /\ d = destination args
  /\ a = negb (no_resume args)
  /\ subsequence
       [EvLog Info ("Starting download: " ++ torrent args)%string false;
        EvCall (CDownload t d a) o]
       tr.
Proof.
  handler_cases E.
  all: name_run; intros Hin; split_in.
  all: repeat split; show_subsequence.
Qed.

Lemma download_called_as_requested_witness :
  "magnet:?xt=abc"%string = torrent download_args
  /\ "/tmp/out"%string = destination download_args
  /\ true = negb (no_resume download_args)
  /\ subsequence
       [EvLog Info "Starting download: magnet:?xt=abc" false;
        EvCall (CDownload "magnet:?xt=abc" "/tmp/out" true)
               (Ret (PyStr "/tmp/out/file.iso"))]
       (fst (run (handle_download plain_host download_args))).
Proof.
  apply (download_called_as_requested
           plain_host download_args
           (fst (run (handle_download plain_host download_args)))
           (snd (run (handle_download plain_host download_args)))
           "magnet:?xt=abc" "/tmp/out" true
           (Ret (PyStr "/tmp/out/file.iso"))).
  - reflexivity.
  - cbn. auto 20.
Defined.

Lemma falsy_path (p : string) :
  negb (truthy (opt_value (Some p))) = true -> p = ""%string.
Proof.
  cbn. rewrite negb_involutive. apply String.eqb_eq.
Qed.

(** X7: without the upload flag, a download that returns a non-empty
    path ends the download handler with the log
    "Download completed: <path>" as its last action and exit code 0; the
    upload collaborator is not called. *)
Theorem download_without_upload_succeeds
        (E : Env) (args : Namespace) tr r t d a p :
  run (handle_download E args) = (tr, r) ->
  upload args = false ->
  In (EvCall (CDownload t d a) (Ret (PyStr p))) tr ->
  p <> ""%string ->
  r = Ret 0
  /\ ends_with tr (log_download_completed p)
  /\ never is_upload_call tr.
Proof.
  intros Hrun Hflag. revert Hrun. unfold_handler. rewrite Hflag.
  repeat (handler_step E; cbn [app andb map_outcome exit_code]; rewrite ?app_nil_r).
  all: name_run; intros Hin Hp; split_in.
  all: try (exfalso; apply Hp; apply falsy_path; assumption).
  all: repeat split; first [ reflexivity | show_ends_with | show_never ].
Qed.

Lemma download_without_upload_succeeds_witness :
  let result := run (handle_download plain_host download_args) in
  snd result = Ret 0
  /\ ends_with (fst result) (log_download_completed "/tmp/out/file.iso")
  /\ never is_upload_call (fst result).
Proof.
  apply (download_without_upload_succeeds
           plain_host download_args _ _ "magnet:?xt=abc" "/tmp/out" true
           "/tmp/out/file.iso").
  - reflexivity.
  - reflexivity.
  - cbn. auto 20.
  - discriminate.
Defined.

(** X8: the download handler does not catch what the download
    collaborator raises: the exception leaves the handler right after the
    call, whatever its class, and the upload collaborator is not called. *)
Theorem download_exception_propagates
        (E : Env) (args : Namespace) tr r t d a (e : exn) :
  run (handle_download E args) = (tr, r) ->
  In (EvCall (CDownload t d a) (Raise e)) tr ->
  r = Raise e
  /\ ends_with tr (EvCall (CDownload t d a) (Raise e))
  /\ never is_upload_call tr.
Proof.
  handler_cases E.
  all: name_run; intros Hin; split_in.
  all: repeat split; first [ reflexivity | show_ends_with | show_never ].
Qed.

Lemma download_exception_propagates_witness :
  let result :=
    run (handle_download
           (with_download plain_host (Raise (mkExn (OtherException "OSError") "disk full")))
           download_upload_args) in
  snd result = Raise (mkExn (OtherException "OSError") "disk full")
  /\ ends_with (fst result)
               (EvCall (CDownload "magnet:?xt=abc" "/tmp/out" true)
                       (Raise (mkExn (OtherException "OSError") "disk full")))
  /\ never is_upload_call (fst result).
Proof.
  apply (download_exception_propagates
           (with_download plain_host (Raise (mkExn (OtherException "OSError") "disk full")))
           download_upload_args _ _ "magnet:?xt=abc" "/tmp/out" true
           (mkExn (OtherException "OSError") "disk full")).
  - reflexivity.
  - cbn. auto 20.
Defined.

(** X9: with a destination outside [/content/drive] and without the
    upload flag, the download handler never invokes the mount helper and
    never checks a path. *)
Theorem download_without_drive_never_mounts (E : Env) (args : Namespace) :
  startswith (destination args) "/content/drive" = false ->
  upload args = false ->
  never is_mount_helper (fst (run (handle_download E args)))
  /\ never is_mount_call (fst (run (handle_download E args)))
  /\ never is_path_check (fst (run (handle_download E args))).
Proof.
  intros Hdest Hflag. unfold_handler. rewrite Hdest, Hflag.
  repeat (handler_step E; cbn [app andb map_outcome exit_code]; rewrite ?app_nil_r).
  all: cbn [fst]; repeat split; reflexivity.
Qed.

Lemma download_without_drive_never_mounts_witness :
  never is_mount_helper (fst (run (handle_download (notebook (Ret PyNone)) download_args)))
  /\ never is_mount_call (fst (run (handle_download (notebook (Ret PyNone)) download_args)))
  /\ never is_path_check (fst (run (handle_download (notebook (Ret PyNone)) download_args))).
Proof.
  apply (download_without_drive_never_mounts (notebook (Ret PyNone)) download_args).
  - reflexivity.
  - reflexivity.
Defined.


(** ** What the upload returned *)

Lemma ends_with_result_app (v : pyvalue) (pre evs : list event) :
  ends_with evs (result_log v) -> ends_with (pre ++ evs) (result_log v).
Proof. apply ends_with_app. Qed.

(** How both handlers end after the upload returned a value. *)
Lemma handlers_result (E : Env) (args : Namespace) tr r p f s v :
  run (handle_download E args) = (tr, r) \/ run (handle_upload E args) = (tr, r) ->
  In (EvCall (CUpload p f s) (Ret v)) tr ->
  r = Ret (result_code v) /\ ends_with tr (result_log v).
Proof.
  intros [Hrun|Hrun]; revert Hrun.
  all: detailed_cases E.
  all: name_run; intros Hin; split_in.
  all: destruct (Hresult _ _ Hin) as [Hlog Hcode']; cbn [map_outcome exit_code] in Hcode'.
  all: split; [ first [ exact Hcode' | discriminate Hcode' ] | show_ends_with ].
Qed.

(** X10: when the upload collaborator returns something that is no
    mapping ([None], a list, a string, ...), [results.get] raises an
    [AttributeError] that both handlers catch: they log
    "Upload failed: '<type>' object has no attribute 'get'" as their last
    action and return exit code 1. *)
Theorem upload_result_not_a_mapping
        (E : Env) (args : Namespace) tr r p f s v :
  run (handle_download E args) = (tr, r) \/ run (handle_upload E args) = (tr, r) ->
  In (EvCall (CUpload p f s) (Ret v)) tr ->
  is_mapping v = false ->
  r = Ret 1 /\ ends_with tr (log_upload_failed (not_a_mapping v)).
Proof.
  intros Hrun Hin Hv.
  destruct (handlers_result E args tr r p f s v Hrun Hin) as [Hcode Hlog].
  destruct v; try discriminate Hv; split; first [exact Hcode | exact Hlog].
Qed.

Lemma upload_result_not_a_mapping_witness :
  let result :=
    run (handle_upload (with_upload plain_host None (Ret PyNone)) upload_args) in
  snd result = Ret 1
  /\ ends_with (fst result)
               (EvLog Error "Upload failed: 'NoneType' object has no attribute 'get'"
                      false).
Proof.
  apply (upload_result_not_a_mapping
           (with_upload plain_host None (Ret PyNone)) upload_args _ _
           "/tmp/out/file.iso" (Some "abc123") true PyNone).
  - right. reflexivity.
  - cbn. auto 20.
  - reflexivity.
Defined.

(** X11: when the upload collaborator returns a mapping whose ["failed"]
    entry is truthy, both handlers return exit code 1 whatever the type
    of the entry.  An entry with a length (list, mapping, string) gives
    the warning "Some files failed (n)" with that length; an entry
    without one ([True], a number) makes [len] raise a [TypeError], which
    the handler catches and logs as
    "Upload failed: object of type '<type>' has no len()". *)
Theorem truthy_failed_entry_is_failure
        (E : Env) (args : Namespace) tr r p f s entries :
  run (handle_download E args) = (tr, r) \/ run (handle_upload E args) = (tr, r) ->
  In (EvCall (CUpload p f s) (Ret (PyDict entries))) tr ->
  truthy (dict_get entries "failed") = true ->
  r = Ret 1
  /\ ends_with tr
       match dict_get entries "failed" with
       | PyList items => log_some_failed (List.length items)
       | PyDict failures => log_some_failed (List.length failures)
       | PyStr text => log_some_failed (str_len text)
       | PyNone | PyBool _ | PyInt _ =>
           log_upload_failed (no_len (dict_get entries "failed"))
       end.
Proof.
  intros Hrun Hin Hfailed.
  destruct (handlers_result E args tr r p f s _ Hrun Hin) as [Hcode Hlog].
  unfold result_code, result_log in Hcode, Hlog. cbv zeta in Hlog.
  rewrite Hfailed in Hcode, Hlog. split; [exact Hcode | exact Hlog].
Qed.

Lemma truthy_failed_entry_is_failure_witness :
  let result :=
    run (handle_upload
           (with_upload plain_host None (Ret (PyDict [("failed", PyBool true)])))
           upload_args) in
  snd result = Ret 1
  /\ ends_with (fst result)
               (EvLog Error "Upload failed: object of type 'bool' has no len()" false).
Proof.
  apply (truthy_failed_entry_is_failure
           (with_upload plain_host None (Ret (PyDict [("failed", PyBool true)])))
           upload_args _ _ "/tmp/out/file.iso" (Some "abc123") true
           [("failed", PyBool true)]).
  - right. reflexivity.
  - cbn. auto 20.
  - reflexivity.
Defined.

(** ** The uploader module cannot be imported *)

(** Like [show_never], for a trace that ends with the upload step. *)
Ltac show_never_with_step :=
  solve [ repeat first
    [ apply never_nil
    | assumption
    | apply never_cons; [reflexivity|]
    | apply never_app
    | eapply never_by_kind;
      [ | eassumption ];
      first [ apply mount_event_not_upload | apply mount_event_not_download
            | apply mount_event_not_traceback ] ] ].

(** X12: when the import of the uploader module fails, neither handler
    calls the upload collaborator.  If the failure is an [ImportError],
    the handler logs "Failed to import uploader: ...", prints the
    installation hint and returns exit code 1; after any other exception
    the hint is not printed. *)
Theorem uploader_import_failure (E : Env) (args : Namespace) tr r (e : exn) :
  run (handle_download E args) = (tr, r) \/ run (handle_upload E args) = (tr, r) ->
  In (EvImport "gdrive_uploader" (Some e)) tr ->
  never is_upload_call tr
  /\ (is_ImportError e = true ->
      r = Ret 1 /\ In (log_import_failed e) tr /\ In print_install_hint tr)
  /\ (is_ImportError e = false -> ~ In print_install_hint tr).
Proof.
  intros [Hrun|Hrun]; revert Hrun.
  all: detailed_cases E.
  all: name_run; intros Hin; split_in.
  all: destruct (Hnoimport _ Hin) as (Hnever & Hhint & Hnohint).
  all: pose proof (Himport _ Hin) as Hfate; unfold contained in Hfate.
  all: split; [show_never_with_step|].
  all: split;
    [ | intros Himp Hin'; unfold print_install_hint in *; split_in;
        apply (Hnohint Himp); assumption ].
  all: try (intros Himp; rewrite (ImportError_is_Exception e Himp) in Hfate;
            destruct (Hhint Himp) as [Hlog Hprint];
            split; [ first [ apply Hfate | destruct Hfate as [Hfate _]; discriminate Hfate ] | ];
            split; repeat first [ assumption | apply in_cons | apply in_or_app; right ]).
Qed.

Lemma uploader_import_failure_witness :
  let missing := mkExn ModuleNotFoundError "No module named 'googleapiclient'" in
  let result :=
    run (handle_upload (with_upload plain_host (Some missing) (Ret PyNone))
                       upload_args) in
  snd result = Ret 1
  /\ In (log_import_failed missing) (fst result)
  /\ In print_install_hint (fst result).
Proof.
  apply (proj1 (proj2
           (uploader_import_failure
              (with_upload plain_host
                 (Some (mkExn ModuleNotFoundError "No module named 'googleapiclient'"))
                 (Ret PyNone))
              upload_args
              (fst (run (handle_upload
                           (with_upload plain_host
                              (Some (mkExn ModuleNotFoundError
                                           "No module named 'googleapiclient'"))
                              (Ret PyNone))
                           upload_args)))
              (snd (run (handle_upload
                           (with_upload plain_host
                              (Some (mkExn ModuleNotFoundError
                                           "No module named 'googleapiclient'"))
                              (Ret PyNone))
                           upload_args)))
              (mkExn ModuleNotFoundError "No module named 'googleapiclient'")
              (or_intror eq_refl)
              ltac:(cbn; auto 20)))).
  reflexivity.
Defined.


(** ** Status and clear through the dispatcher *)

(** X13: the [status] and [clear] commands touch nothing else: no
    download, no upload, no mount helper, no path check; [status] never
    clears the session and [clear] never queries it. *)
Theorem status_and_clear_touch_nothing_else (E : Env) (args : Namespace) :
  command args = Some "status"%string \/ command args = Some "clear"%string ->
  let tr := fst (run (main E args)) in
  never is_download_call tr
  /\ never is_upload_call tr
  /\ never is_mount_helper tr
  /\ never is_path_check tr
  /\ (command args = Some "status"%string -> never is_clear_call tr)
  /\ (command args = Some "clear"%string -> never is_status_call tr).
Proof.
  intros [Hcmd|Hcmd]; cbv zeta; unfold run, main, dispatch; rewrite Hcmd.
  all: cbn [opt_value opt_str truthy negb String.eqb Ascii.eqb Bool.eqb].
  all: unfold try_except, handle_status, handle_clear; unfold_handler; cbv [extern].
  - destruct (get_download_status E []) as [v|e]; [destruct (truthy v)|];
      cbn [select_clause];
      [ | | destruct (is_KeyboardInterrupt e); [|destruct (is_Exception e)] ].
    all: cbn; repeat split; try reflexivity; intros [= ?].
  - destruct (clear_session E []) as [v|e]; [destruct (truthy v)|];
      cbn [select_clause];
      [ | | destruct (is_KeyboardInterrupt e); [|destruct (is_Exception e)] ].
    all: cbn; repeat split; try reflexivity; intros [= ?].
Qed.

Lemma status_and_clear_touch_nothing_else_witness :
  let tr := fst (run (main plain_host status_args)) in
  never is_download_call tr
  /\ never is_upload_call tr
  /\ never is_mount_helper tr
  /\ never is_path_check tr
  /\ (command status_args = Some "status"%string -> never is_clear_call tr)
  /\ (command status_args = Some "clear"%string -> never is_status_call tr).
Proof.
  apply (status_and_clear_touch_nothing_else plain_host status_args).
  left. reflexivity.
Defined.

(** X14: the [status] and [clear] handlers catch nothing: when their
    collaborator raises an instance of [Exception], nothing is printed,
    and [main] logs "Operation failed: ..." with the traceback and
    returns exit code 1. *)
Theorem query_exception_fails_command (E : Env) (args : Namespace) (e : exn) :
  is_Exception e = true ->
  (command args = Some "status"%string ->
   get_download_status E [] = Raise e ->
   run (main E args) = ([EvCall CStatus (Raise e); log_operation_failed e], Ret 1))
  /\ (command args = Some "clear"%string ->
      clear_session E [] = Raise e ->
      run (main E args) = ([EvCall CClear (Raise e); log_operation_failed e], Ret 1)).
Proof.
  intros Hexn.
  assert (Hki : is_KeyboardInterrupt e = false).
  { destruct (is_KeyboardInterrupt e) eqn:Hki; [|reflexivity].
    rewrite (KeyboardInterrupt_not_Exception e Hki) in Hexn. discriminate Hexn. }
  split; intros Hcmd Hraise; unfold run, main, dispatch; rewrite Hcmd.
  all: cbn [opt_value opt_str truthy negb String.eqb Ascii.eqb Bool.eqb].
  all: unfold try_except, handle_status, handle_clear; unfold_handler; cbv [extern].
  all: rewrite Hraise; cbn [select_clause]; rewrite Hki, Hexn; reflexivity.
Qed.

Lemma query_exception_fails_command_witness :
  run (main (with_status plain_host (Raise (mkExn (OtherException "OSError") "unreadable")))
            status_args)
  = ([EvCall CStatus (Raise (mkExn (OtherException "OSError") "unreadable"));
      log_operation_failed (mkExn (OtherException "OSError") "unreadable")],
     Ret 1).
Proof.
  apply (proj1 (query_exception_fails_command
                  (with_status plain_host
                     (Raise (mkExn (OtherException "OSError") "unreadable")))
                  status_args
                  (mkExn (OtherException "OSError") "unreadable")
                  eq_refl)).
  - reflexivity.
  - reflexivity.
Defined.

(** ** Where exceptions come from *)

Lemma mount_helper_raise_origin (E : Env) (tr : trace) (e : exn) :
  snd (ensure_drive_mounted E tr) = Raise e ->
  raised_in e (fst (ensure_drive_mounted E tr)).
Proof.
  unfold ensure_drive_mounted. unfold_run.
  destruct (import_google_colab E _) as [e1|]; cbn [app].
  - destruct (is_ImportError e1); cbn [fst snd]; intros [= <-].
    right. eexists. cbn. eauto.
  - destruct (import_colab_drive E _) as [e2|]; cbn [app].
    + destruct (is_ImportError e2); cbn [fst snd]; intros [= <-].
      right. eexists. cbn. eauto.
    + destruct (os_path_exists E _ _); cbn [app negb fst snd]; [discriminate|].
      destruct (drive_mount E _ _) as [v|e3]; cbn [app fst snd]; [discriminate|].
      destruct (is_ImportError e3); cbn [fst snd]; intros [= <-].
      left. eexists. cbn. eauto 10.
Qed.

Lemma upload_block_raise_origin (E : Env) p f s tr evs (e : exn) :
  upload_block E p f s tr = (evs, Raise e) -> raised_in e evs.
Proof.
  run_cases E.
  all: intros Hrun; apply pair_equal_spec in Hrun; destruct Hrun as [<- Hr].
  all: try discriminate Hr.
  all: injection Hr as <-.
  all: first [ solve [left; eexists; cbn [In]; eauto 10]
             | solve [right; eexists; cbn [In]; eauto 10] ].
Qed.

Lemma raised_in_cons (e : exn) (ev : event) (tr : list event) :
  raised_in e tr -> raised_in e (ev :: tr).
Proof.
  intros [[c Hin]|[m Hin]]; [left; exists c | right; exists m]; right; exact Hin.
Qed.

Lemma raised_in_app_r (e : exn) (pre tr : list event) :
  raised_in e tr -> raised_in e (pre ++ tr).
Proof.
  intros [[c Hin]|[m Hin]]; [left; exists c | right; exists m];
    apply in_or_app; right; exact Hin.
Qed.

Lemma raised_in_app_l (e : exn) (tr post : list event) :
  raised_in e tr -> raised_in e (tr ++ post).
Proof.
  intros [[c Hin]|[m Hin]]; [left; exists c | right; exists m];
    apply in_or_app; left; exact Hin.
Qed.

Lemma raised_in_call (e : exn) (c : call) (tr : list event) :
  raised_in e (EvCall c (Raise e) :: tr).
Proof. left. exists c. left. reflexivity. Qed.

(** Like [handler_step], keeping where an exception of the mount helper or
    of the upload step was raised. *)
Ltac origin_step E :=
  match goal with
  | |- context [ensure_drive_mounted E ?tr] =>
      let Horigin := fresh "Horigin" in
      pose proof (mount_helper_raise_origin E tr) as Horigin;
      destruct (ensure_drive_mounted E tr) as [?mount_evs [[]|?e]];
      cbn [fst snd] in Horigin;
      [ clear Horigin | specialize (Horigin _ eq_refl) ]
  | |- context [try_except ?m ?cl ?tr] =>
      match m with
      | context [CUpload ?p ?f ?s] =>
          first [ change (try_except m cl tr) with (upload_block E p f s tr)
                | change (try_except m cl tr) with (upload_block_return E p f s tr);
                  rewrite (upload_block_return_eq E p f s tr) ]
      end
  | |- context [upload_block E ?p ?f ?s ?tr] =>
      let Hblock := fresh "Hblock" in
      destruct (upload_block E p f s tr) as [?block_evs [[?code|]|?e]] eqn:Hblock;
      [ clear Hblock | clear Hblock | apply upload_block_raise_origin in Hblock ]
  | |- context [download_torrent E ?tr ?t ?d ?a] =>
      destruct (download_torrent E tr t d a) as [[?|]|?]
  | |- context [os_path_exists E ?tr ?p] =>
      destruct (os_path_exists E tr p)
  | |- context [if ?c then _ else _] => destruct c
  end.

Ltac show_raised :=
  solve [ repeat first
            [ apply raised_in_call
            | eassumption
            | apply raised_in_cons
            | apply raised_in_app_r ] ].

Ltac origin_cases E :=
  unfold_handler;
  repeat (origin_step E; cbn [app map_outcome exit_code]; rewrite ?app_nil_r);
  try discriminate;
  let Hrun := fresh "Hrun" in
  intros Hrun; apply pair_equal_spec in Hrun; destruct Hrun as [<- Hrun];
  injection Hrun as <-;
  show_raised.

(** X15: the handlers themselves never raise: an exception that leaves a
    handler was raised by a call that left the program (a collaborator,
    [drive.mount]) or by an import, in the same run. *)
Theorem handler_exceptions_come_from_outside
        (E : Env) (args : Namespace) tr (e : exn) :
  dispatch E args [] = (tr, Raise e) -> raised_in e tr.
Proof.
  unfold dispatch.
  repeat match goal with
         | |- context [if ?c then _ else _] => destruct c
         end.
  - change (handle_download E args []) with (run (handle_download E args)).
    origin_cases E.
  - change (handle_upload E args []) with (run (handle_upload E args)).
    origin_cases E.
  - unfold handle_status. unfold_handler. cbv [extern].
    destruct (get_download_status E []) as [v|e0]; [destruct (truthy v)|];
      try discriminate.
    intros [= <- <-]. apply raised_in_call.
  - unfold handle_clear. unfold_handler. cbv [extern].
    destruct (clear_session E []) as [v|e0]; [destruct (truthy v)|];
      try discriminate.
    intros [= <- <-]. apply raised_in_call.
  - unfold_handler. discriminate.
Qed.

Lemma handler_exceptions_come_from_outside_witness :
  raised_in (mkExn KeyboardInterrupt "")
            (banner_upload ++
             [EvMountHelper;
              EvImport "google.colab" None;
              EvImport "google.colab.drive" None;
              EvPathExists "/content/drive/MyDrive" false;
              EvPrint "Mounting Google Drive...";
              EvCall (CDriveMount "/content/drive")
                     (Raise (mkExn KeyboardInterrupt ""))]).
Proof.
  apply (handler_exceptions_come_from_outside
           (notebook (Raise (mkExn KeyboardInterrupt ""))) upload_missing_args).
  reflexivity.
Defined.

(** ** Mounting before a download into the drive *)

(** X16: with a destination under [/content/drive], the download handler
    invokes the mount helper right after its banner, before the check of
    the folder identifier and before any call of the download
    collaborator. *)
Theorem drive_destination_mounts_first (E : Env) (args : Namespace) tr r :
  startswith (destination args) "/content/drive" = true ->
  run (handle_download E args) = (tr, r) ->
  (exists rest, tr = banner_download ++ EvMountHelper :: rest)
  /\ (forall t d a o,
        In (EvCall (CDownload t d a) o) tr ->
        subsequence [EvMountHelper; EvCall (CDownload t d a) o] tr).
Proof.
  intros Hdest. unfold banner_download. unfold_handler. rewrite Hdest.
  repeat (handler_step E; cbn [app andb map_outcome exit_code]; rewrite ?app_nil_r).
  all: name_run.
  all: split; [eexists; reflexivity|].
  all: intros t d a o Hin; split_in; show_subsequence.
Qed.

Lemma drive_destination_mounts_first_witness :
  exists rest,
    fst (run (handle_download (notebook (Ret PyNone)) download_no_folder_args))
    = banner_download ++ EvMountHelper :: rest.
Proof.
  apply (drive_destination_mounts_first
           (notebook (Ret PyNone)) download_no_folder_args
           (fst (run (handle_download (notebook (Ret PyNone)) download_no_folder_args)))
           (snd (run (handle_download (notebook (Ret PyNone)) download_no_folder_args)))).
  - reflexivity.
  - reflexivity.
Defined.
